(** * kulinar_web_scrapper: the crawl-and-extract pipeline of [scraping.py]

    A shallow embedding of the scraper classes [ScrapingMixin], [Scraper]
    and [RecipeScraper] and of the part of [main] that computes the result
    list, followed by the properties of the natural-language specification
    that were checked against it.

    - Python [str] values are sequences of Unicode code points.
    - A parsed page (a BeautifulSoup tree) is a finite tree of tags and
      text nodes; [find] / [find_all] walk the descendants in document
      order.
    - An [await]ed call either returns a value or raises; the exception
      classes that the scraper can meet are enumerated in [exn].
    - The network is a function from URLs to fetched pages; [get_soup]
      turns every transport failure into [None], exactly as the source. *)

From Stdlib Require Import Ascii String List NArith Bool Lia.
Import ListNotations.

Set Implicit Arguments.
Set Warnings "-register-all".

(** ** Python strings *)

Module Py.

Definition char := N.
Definition str := list char.

Definition char_eqb (a b : char) : bool := N.eqb a b.

Fixpoint str_eqb (s t : str) : bool :=
  match s, t with
  | [], [] => true
  | a :: s', b :: t' => char_eqb a b && str_eqb s' t'
  | _, _ => false
  end.

(** An ASCII literal of the source, as code points. *)
Fixpoint lit (s : string) : str :=
  match s with
  | EmptyString => []
  | String a s' => N_of_ascii a :: lit s'
  end.

(** [str.isspace] on one code point: the white-space table of CPython. *)
Definition isspace (c : char) : bool :=
  (((9 <=? c) && (c <=? 13)) || ((28 <=? c) && (c <=? 32))
   || (c =? 133) || (c =? 160) || (c =? 5760)
   || ((8192 <=? c) && (c <=? 8202))
   || (c =? 8232) || (c =? 8233) || (c =? 8239) || (c =? 8287)
   || (c =? 12288))%N.

Definition SPACE : char := 32%N.
Definition NEWLINE : char := 10%N.
Definition NBSP : char := 160%N.

(** [s.replace(a, b)] for one-character [a] and [b]. *)
Definition replace (a b : char) (s : str) : str :=
  map (fun c => if char_eqb c a then b else c) s.

Fixpoint lstrip (s : str) : str :=
  match s with
  | [] => []
  | c :: s' => if isspace c then lstrip s' else s
  end.

Definition rstrip (s : str) : str := rev (lstrip (rev s)).

(** [s.strip()] *)
Definition strip (s : str) : str := rstrip (lstrip s).

(** [s.split()]: the maximal runs of non-white-space characters. *)
Fixpoint split (s : str) : list str :=
  match s with
  | [] => []
  | c :: s' =>
      if isspace c then split s'
      else match s' with
           | [] => [[c]]
           | d :: _ =>
               if isspace d then [c] :: split s'
               else match split s' with
                    | w :: ws => (c :: w) :: ws
                    | [] => [[c]]
                    end
           end
  end.

(** [sep.join(ws)] *)
Fixpoint join (sep : str) (ws : list str) : str :=
  match ws with
  | [] => []
  | w :: ws' =>
      match ws' with
      | [] => w
      | _ :: _ => w ++ sep ++ join sep ws'
      end
  end.

(** [''.join(ws)] *)
Definition concat (ws : list str) : str := List.concat ws.

End Py.

Import Py.

(** ** [ScrapingMixin.clean_text] *)

Definition clean_text (text : str) : str :=
  join [SPACE] (split (replace NBSP SPACE (replace NEWLINE SPACE text))).

(** ** Parsed pages (BeautifulSoup trees) *)

Module Bs4.

(** A page element is a text node (a [NavigableString] that [get_text]
    reports) or a tag with its name, the list of its classes (the parsed
    multi-valued [class] attribute), its other attributes and its contents
    in document order.  The document itself is the root tag. *)
Inductive node : Type :=
| Text (s : str)
| Tag (name : str) (classes : list str) (attrs : list (str * str))
      (contents : list node).

(** All descendants of a node, in document order (pre-order). *)
Fixpoint descendants (n : node) : list node :=
  match n with
  | Text _ => []
  | Tag _ _ _ ks =>
      (fix walk (l : list node) : list node :=
         match l with
         | [] => []
         | k :: l' => k :: descendants k ++ walk l'
         end) ks
  end.

Definition has_class (c : str) (classes : list str) : bool :=
  existsb (str_eqb c) classes || str_eqb (join [SPACE] classes) c.

(** Does a node satisfy the filter [name, class_=c]?  A filter on the class
    accepts a tag one of whose classes is [c] or whose whole class string
    is [c]; configured class names are non-empty. *)
Definition matches (name : str) (class_ : option str) (n : node) : bool :=
  match n with
  | Text _ => false
  | Tag nm cls _ _ =>
      str_eqb nm name
      && match class_ with
         | None => true
         | Some c => has_class c cls
         end
  end.

(** [tag.find_all(name, class_=c)] *)
Definition find_all (n : node) (name : str) (class_ : option str)
  : list node :=
  filter (matches name class_) (descendants n).

(** [tag.find(name, class_=c)]: the first match, or [None]. *)
Definition find (n : node) (name : str) (class_ : option str)
  : option node :=
  match find_all n name class_ with
  | [] => None
  | m :: _ => Some m
  end.

(** The strings below a tag, in document order. *)
Definition strings (n : node) : list str :=
  flat_map (fun d => match d with Text s => [s] | Tag _ _ _ _ => [] end)
           (descendants n).

(** [tag.get_text()], also [tag.text] *)
Definition get_text (n : node) : str := concat (strings n).

(** [tag.get_text(strip=True)]: every string stripped, empty ones
    dropped. *)
Definition get_text_strip (n : node) : str :=
  concat (filter (fun s => negb (str_eqb s []))
                 (map strip (strings n))).

Fixpoint assoc (key : str) (l : list (str * str)) : option str :=
  match l with
  | [] => None
  | (k, v) :: l' => if str_eqb k key then Some v else assoc key l'
  end.

(** The attribute dictionary lookup behind [tag[key]]. *)
Definition get_attr (n : node) (key : str) : option str :=
  match n with
  | Text _ => None
  | Tag _ _ attrs _ => assoc key attrs
  end.

End Bs4.

Import Bs4.

(** ** Outcomes of Python calls *)

Inductive exn : Type :=
| AttributeError
| TypeError
| KeyError
| IndexError.

Inductive outcome (A : Type) : Type :=
| Return (a : A)
| Raise (e : exn).

Arguments Return {A} a.
Arguments Raise {A} e.

Definition bind {A B : Type} (c : outcome A) (k : A -> outcome B)
  : outcome B :=
  match c with
  | Return a => k a
  | Raise e => Raise e
  end.

Notation "x <- c ;; k" := (bind c (fun x => k))
  (at level 61, c at next level, right associativity).

(** A list comprehension whose element expression may raise: elements are
    evaluated left to right and the first exception ends the evaluation. *)
Fixpoint comprehension {A B : Type} (f : A -> outcome B) (l : list A)
  : outcome (list B) :=
  match l with
  | [] => Return []
  | a :: l' =>
      b <- f a ;;
      bs <- comprehension f l' ;;
      Return (b :: bs)
  end.

(** [try: body  except AttributeError: handler] *)
Definition try_except_AttributeError {A : Type}
  (body : outcome A) (handler : outcome A) : outcome A :=
  match body with
  | Raise AttributeError => handler
  | other => other
  end.

(** [try: body  except Exception: handler] *)
Definition try_except_Exception {A : Type}
  (body : outcome A) (handler : outcome A) : outcome A :=
  match body with
  | Raise _ => handler
  | other => other
  end.

(** [x.attribute] where [x] is the result of a [find]: [None] has no
    attributes. *)
Definition member (x : option node) : outcome node :=
  match x with
  | Some n => Return n
  | None => Raise AttributeError
  end.

(** [x[key]] where [x] is the result of a [find]: [None] is not
    subscriptable, and a tag without the attribute raises [KeyError]. *)
Definition getitem (x : option node) (key : str) : outcome str :=
  match x with
  | None => Raise TypeError
  | Some n =>
      match get_attr n key with
      | Some v => Return v
      | None => Raise KeyError
      end
  end.

(** [l[i]] on a list. *)
Definition index {A : Type} (l : list A) (i : nat) : outcome A :=
  match nth_error l i with
  | Some a => Return a
  | None => Raise IndexError
  end.

(** [await asyncio.gather] over a task list, without [return_exceptions]: the list
    of the tasks' results in submission order when every task returns, an
    exception of a task otherwise.  When several tasks raise, the one that
    reaches the caller is the first to fail in time; the model reports the
    first in submission order, and no statement below depends on which. *)
Definition gather {A : Type} (tasks : list (outcome A))
  : outcome (list A) :=
  comprehension (fun t => t) tasks.

(** ** The configuration object and the scraped values *)

Module Config.

Record category_classes_t : Type := {
  main_category : str;
  category_item : str;
  category_text : str
}.

Record recipes_classes_t : Type := {
  recipes_container : str;
  recipe_link : str
}.

Record recipe_page_classes_t : Type := {
  recipe_title : str;
  main_image : str;
  description : str;
  author : str;
  author_name : str;
  ingredients : str;
  cooking_stages : str;
  stage_count : str;
  portion : str
}.

Record t : Type := {
  base_url : str;
  categories_url : str;
  main_category_name : str;
  category_classes : category_classes_t;
  recipes_classes : recipes_classes_t;
  recipe_page_classes : recipe_page_classes_t
}.

End Config.

(** [Category(...).to_dict()] *)
Module Category.
Record t : Type := { name : str; url : str }.
End Category.

(** [SubCategory(...).to_dict()] *)
Module SubCategory.
Record t : Type := {
  sub_category_name : str;
  sub_category_url : str;
  recipe_urls : list str
}.
End SubCategory.

(** One entry of the [cooking_stages] list. *)
Module Stage.
Record t : Type := { stage : str; text : str }.
End Stage.

(** The dictionary built by [extract_recipe_details].  [cooking_stages]
    holds whatever [get_cooking_stages] returned, which may be [None];
    [main_category_url] is the scraper's attribute, [None] until it is
    initialised. *)
Module Recipe.
Record t : Type := {
  recipe_name : str;
  url : str;
  main_category_name : str;
  main_category_url : option str;
  sub_category_name : str;
  sub_category_url : str;
  main_image_url : str;
  description : str;
  author_name : str;
  ingredients : list str;
  cooking_stages : option (list Stage.t);
  portion : str
}.
End Recipe.

(** The attributes of a [Scraper] / [RecipeScraper] instance. *)
Module Scraper.
Record t : Type := {
  config : Config.t;
  base_url : str;
  main_category_name : str;
  main_category_url : option str
}.
End Scraper.

(** ** The network *)

(** What [session.get(url)] followed by [raise_for_status()] and parsing
    gives: a parsed page, or any failure (transport error, error status). *)
Inductive response : Type :=
| Page (soup : node)
| Failure.

Definition session : Type := str -> response.

(** [ScrapingMixin.get_soup]: every exception becomes [None]. *)
Definition get_soup (s : session) (url : str) : option node :=
  match s url with
  | Page soup => Some soup
  | Failure => None
  end.

(** ** [ScrapingMixin.get_cooking_stages] *)

Definition DIV : str := lit "div".
Definition A : str := lit "a".
Definition P : str := lit "p".
Definition IMG : str := lit "img".
Definition HREF : str := lit "href".
Definition SRC : str := lit "src".

(** The body of the loop over the stage containers. *)
Definition cooking_stage (cfg : Config.t) (item : node)
  : outcome Stage.t :=
  label <- member (find item DIV
             (Some (Config.stage_count (Config.recipe_page_classes cfg)))) ;;
  let stage := clean_text (get_text label) in
  par <- member (find item P None) ;;
  let description := clean_text (get_text par) in
  Return {| Stage.stage := stage; Stage.text := description |}.

(** The handler of [AttributeError] only logs: the function then falls
    off its end and returns [None]. *)
Definition get_cooking_stages (soup : node) (cfg : Config.t)
  : outcome (option (list Stage.t)) :=
  try_except_AttributeError
    (let stage_divs :=
       find_all soup DIV
         (Some (Config.cooking_stages (Config.recipe_page_classes cfg))) in
     stages <- comprehension (cooking_stage cfg) stage_divs ;;
     Return (Some stages))
    (Return None).

(** ** [Scraper] *)

(** [Scraper.__init__] *)
Definition init (cfg : Config.t) : Scraper.t :=
  {| Scraper.config := cfg;
     Scraper.base_url := Config.base_url cfg;
     Scraper.main_category_name := Config.main_category_name cfg;
     Scraper.main_category_url := None |}.

(** The element expression of the comprehension in [get_categories]; the
    name is evaluated before the URL. *)
Definition category_of_anchor (self : Scraper.t) (anchor : node)
  : outcome Category.t :=
  let cc := Config.category_classes (Scraper.config self) in
  label <- member (find anchor DIV (Some (Config.category_text cc))) ;;
  let name := get_text_strip label in
  href <- getitem (Some anchor) HREF ;;
  Return {| Category.name := name;
            Category.url := Scraper.base_url self ++ href |}.

Definition get_categories (self : Scraper.t) (s : session) (url : str)
  : outcome (list Category.t) :=
  match get_soup s url with
  | None => Return []
  | Some soup =>
      let cc := Config.category_classes (Scraper.config self) in
      try_except_AttributeError
        (categories_div <-
           member (find soup DIV (Some (Config.main_category cc))) ;;
         comprehension (category_of_anchor self)
           (find_all categories_div A (Some (Config.category_item cc))))
        (Return [])
  end.

Fixpoint get_one_category_url_loop (target : str)
  (categories : list Category.t) : option str :=
  match categories with
  | [] => None
  | category :: rest =>
      if str_eqb (Category.name category) target
      then Some (Category.url category)
      else get_one_category_url_loop target rest
  end.

Definition get_one_category_url (self : Scraper.t)
  (categories : list Category.t) : option str :=
  get_one_category_url_loop (Scraper.main_category_name self) categories.

(** [initialize_main_category] assigns [self.main_category_url]; the
    updated instance is returned. *)
Definition initialize_main_category (self : Scraper.t) (s : session)
  : outcome Scraper.t :=
  categories <-
    get_categories self s
      (Scraper.base_url self ++ Config.categories_url (Scraper.config self)) ;;
  Return {| Scraper.config := Scraper.config self;
            Scraper.base_url := Scraper.base_url self;
            Scraper.main_category_name := Scraper.main_category_name self;
            Scraper.main_category_url :=
              get_one_category_url self categories |}.

Definition _extract_recipe_urls (self : Scraper.t) (s : session)
  (category : Category.t) : outcome (list SubCategory.t) :=
  match get_soup s (Category.url category) with
  | None => Return []
  | Some soup =>
      let rc := Config.recipes_classes (Scraper.config self) in
      try_except_AttributeError
        (container <-
           member (find soup DIV (Some (Config.recipes_container rc))) ;;
         let recipe_links :=
           find_all container A (Some (Config.recipe_link rc)) in
         urls <- comprehension
                   (fun link =>
                      href <- getitem (Some link) HREF ;;
                      Return (Scraper.base_url self ++ href))
                   recipe_links ;;
         Return [ {| SubCategory.sub_category_name := Category.name category;
                     SubCategory.sub_category_url := Category.url category;
                     SubCategory.recipe_urls := urls |} ])
        (Return [])
  end.

Definition get_all_recipes_urls (self : Scraper.t) (s : session)
  (categories : list Category.t) : outcome (list (list SubCategory.t)) :=
  try_except_Exception
    (gather (map (_extract_recipe_urls self s) categories))
    (Return []).

(** ** [RecipeScraper] *)

(** The word for "portion" that the site prints without a count
    (U+10E3 U+10DA U+10E3 U+10E4 U+10D0), and its corrected form with a
    leading "1 ". *)
Definition PORTION_WORD : str := [4323; 4314; 4323; 4324; 4304]%N.
Definition ONE_PORTION : str := lit "1 " ++ PORTION_WORD.

Definition normalize_portion (portion : str) : str :=
  if str_eqb portion PORTION_WORD then ONE_PORTION else portion.

Definition extract_recipe_details (self : Scraper.t) (s : session)
  (recipe_url sub_category_name sub_category_url : str)
  : outcome (option Recipe.t) :=
  match get_soup s recipe_url with
  | None => Return None
  | Some soup =>
      let pc := Config.recipe_page_classes (Scraper.config self) in
      try_except_AttributeError
        (title_div <-
           member (find soup DIV (Some (Config.recipe_title pc))) ;;
         let recipe_title := clean_text (get_text title_div) in
         image_div <-
           member (find soup DIV (Some (Config.main_image pc))) ;;
         main_image_url <- getitem (find image_div IMG None) SRC ;;
         description_div <-
           member (find soup DIV (Some (Config.description pc))) ;;
         let description := clean_text (get_text description_div) in
         author_div <-
           member (find soup DIV (Some (Config.author pc))) ;;
         author_tag <-
           member (find author_div (Config.author_name pc) None) ;;
         let author_name := clean_text (get_text author_tag) in
         let ingredients :=
           map (fun div => clean_text (get_text div))
               (find_all soup DIV (Some (Config.ingredients pc))) in
         cooking_stages <- get_cooking_stages soup (Scraper.config self) ;;
         portion_div <-
           index (find_all soup DIV (Some (Config.portion pc))) 1 ;;
         let portion := normalize_portion (strip (get_text portion_div)) in
         Return (Some
           {| Recipe.recipe_name := recipe_title;
              Recipe.url := recipe_url;
              Recipe.main_category_name := Scraper.main_category_name self;
              Recipe.main_category_url := Scraper.main_category_url self;
              Recipe.sub_category_name := sub_category_name;
              Recipe.sub_category_url := sub_category_url;
              Recipe.main_image_url := main_image_url;
              Recipe.description := description;
              Recipe.author_name := author_name;
              Recipe.ingredients := ingredients;
              Recipe.cooking_stages := cooking_stages;
              Recipe.portion := portion |}))
        (Return None)
  end.

(** The tasks that [scrape_recipe] submits, in the order of its two
    nested loops. *)
Definition scrape_recipe_tasks (self : Scraper.t) (s : session)
  (data : list SubCategory.t) : list (outcome (option Recipe.t)) :=
  flat_map
    (fun sub_category =>
       map (fun recipe_url =>
              extract_recipe_details self s recipe_url
                (SubCategory.sub_category_name sub_category)
                (SubCategory.sub_category_url sub_category))
           (SubCategory.recipe_urls sub_category))
    data.

Definition scrape_recipe (self : Scraper.t) (s : session)
  (data : list SubCategory.t) : outcome (list (option Recipe.t)) :=
  gather (scrape_recipe_tasks self s data).

(** ** [main], up to the list handed to persistence *)

(** Truth value of [scraper.main_category_url]: [None] and the empty
    string are false. *)
Definition truthy (x : option str) : bool :=
  match x with
  | None => false
  | Some [] => false
  | Some (_ :: _) => true
  end.

(** The value of [results] in [main]: [None] when the main category was
    not found and the run stops before any crawl. *)
Definition main (cfg : Config.t) (s : session)
  : outcome (option (list (option Recipe.t))) :=
  let scraper := init cfg in
  scraper <- initialize_main_category scraper s ;;
  match Scraper.main_category_url scraper with
  | Some main_category_url =>
      if truthy (Scraper.main_category_url scraper) then
        sub_categories <- get_categories scraper s main_category_url ;;
        recipes <- get_all_recipes_urls scraper s sub_categories ;;
        let flattened_recipes := List.concat recipes in
        results <- scrape_recipe scraper s flattened_recipes ;;
        Return (Some results)
      else Return None
  | None => Return None
  end.

(** ** A fixture site

    One category that matches the target name, one sub-category under it
    and a handful of recipe pages, some of them malformed. *)

Module Fixture.

Definition cfg : Config.t :=
  {| Config.base_url := lit "http://k";
     Config.categories_url := lit "/cat";
     Config.main_category_name := lit "Soups";
     Config.category_classes :=
       {| Config.main_category := lit "cats";
          Config.category_item := lit "cat";
          Config.category_text := lit "cat-text" |};
     Config.recipes_classes :=
       {| Config.recipes_container := lit "recipes";
          Config.recipe_link := lit "recipe" |};
     Config.recipe_page_classes :=
       {| Config.recipe_title := lit "title";
          Config.main_image := lit "image";
          Config.description := lit "descr";
          Config.author := lit "author";
          Config.author_name := lit "span";
          Config.ingredients := lit "ingr";
          Config.cooking_stages := lit "stage";
          Config.stage_count := lit "count";
          Config.portion := lit "portion" |} |}.

Definition div (class_ : string) (contents : list node) : node :=
  Tag DIV [lit class_] [] contents.

Definition txt (s : string) : node := Text (lit s).

Definition link (class_ href : string) (contents : list node) : node :=
  Tag A [lit class_] [(HREF, lit href)] contents.

Definition document (contents : list node) : node :=
  Tag (lit "[document]") [] [] contents.

Definition category_anchor (href label : string) : node :=
  link "cat" href [div "cat-text" [txt label]].

Definition category_page (anchors : list node) : node :=
  document [div "cats" anchors].

Definition listing_page (hrefs : list string) : node :=
  document
    [div "recipes" (map (fun h => link "recipe" h []) hrefs)].

Definition title_part : node := div "title" [txt " Red  soup "].
Definition image_part : node :=
  div "image" [Tag IMG [] [(SRC, lit "/red.png")] []].
Definition description_part : node := div "descr" [txt "Hot."].
Definition author_part : node :=
  div "author" [Tag (lit "span") [] [] [txt "Nino"]].
Definition ingredient_part : node := div "ingr" [txt "beet"].
Definition stage_part : node :=
  div "stage" [div "count" [txt "1"]; Tag P [] [] [txt "Boil."]].
Definition portion_parts (second : str) : list node :=
  [div "portion" [txt "30 min"]; div "portion" [Text second]].

(** A well-formed recipe page whose second portion indicator shows
    [second]. *)
Definition recipe_page (second : str) : node :=
  document
    ([title_part; image_part; description_part; author_part;
      ingredient_part; stage_part] ++ portion_parts second).

(** The same page without its title container. *)
Definition untitled_page : node :=
  document
    ([image_part; description_part; author_part;
      ingredient_part; stage_part] ++ portion_parts (lit "2")).

(** A page one of whose stages has a label but no paragraph. *)
Definition broken_stage_page : node :=
  document
    ([title_part; image_part; description_part; author_part;
      ingredient_part; stage_part; div "stage" [div "count" [txt "2"]]]
     ++ portion_parts (lit "2")).

(** A page with a single portion indicator. *)
Definition one_portion_page : node :=
  document
    [title_part; image_part; description_part; author_part;
     ingredient_part; stage_part; div "portion" [txt "30 min"]].

(** A page whose image container holds no [img]. *)
Definition no_img_page : node :=
  document
    ([title_part; div "image" []; description_part; author_part;
      ingredient_part; stage_part] ++ portion_parts (lit "2")).

(** A page whose [img] has no [src]. *)
Definition no_src_page : node :=
  document
    ([title_part; div "image" [Tag IMG [] [] []]; description_part;
      author_part; ingredient_part; stage_part]
     ++ portion_parts (lit "2")).

(** A well-formed page without any ingredient element. *)
Definition no_ingredient_page : node :=
  document
    ([title_part; image_part; description_part; author_part; stage_part]
     ++ portion_parts (lit "2")).

(** A well-formed page without any stage container. *)
Definition no_stage_page : node :=
  document
    ([title_part; image_part; description_part; author_part;
      ingredient_part] ++ portion_parts (lit "2")).

Fixpoint route (table : list (string * node)) (url : str) : response :=
  match table with
  | [] => Failure
  | (u, page) :: table' =>
      if str_eqb (lit u) url then Page page else route table' url
  end.

Definition serve (url : string) (page : node) : string * node :=
  (url, page).

(** The site whose sub-category "Hot" lists the recipe pages [listing]. *)
Definition site_with (listing : list string) : session :=
  route
    [serve "http://k/cat"
       (category_page [category_anchor "/salads" "Salads";
                       category_anchor "/soups" " Soups "]);
     serve "http://k/soups"
       (category_page [category_anchor "/soups/hot" "Hot"]);
     serve "http://k/soups/hot" (listing_page listing);
     serve "http://k/r1" (recipe_page PORTION_WORD);
     serve "http://k/r2" untitled_page;
     serve "http://k/r3" (recipe_page (lit " 2 " ++ PORTION_WORD ++ lit " "));
     serve "http://k/r4" broken_stage_page;
     serve "http://k/r5" one_portion_page;
     serve "http://k/r6" no_img_page;
     serve "http://k/r7" no_src_page;
     serve "http://k/r8" no_ingredient_page;
     serve "http://k/r9" no_stage_page].

Definition site : session := site_with ["/r1"; "/r2"; "/r3"]%string.

Definition scraper : Scraper.t :=
  {| Scraper.config := cfg;
     Scraper.base_url := lit "http://k";
     Scraper.main_category_name := lit "Soups";
     Scraper.main_category_url := Some (lit "http://k/soups") |}.

Definition hot : Category.t :=
  {| Category.name := lit "Hot"; Category.url := lit "http://k/soups/hot" |}.

Definition cold : Category.t :=
  {| Category.name := lit "Cold"; Category.url := lit "http://k/soups/cold" |}.

Definition hot_recipes : SubCategory.t :=
  {| SubCategory.sub_category_name := lit "Hot";
     SubCategory.sub_category_url := lit "http://k/soups/hot";
     SubCategory.recipe_urls :=
       [lit "http://k/r1"; lit "http://k/r2"; lit "http://k/r3"] |}.

Definition details (path : string) : outcome (option Recipe.t) :=
  extract_recipe_details scraper site (lit "http://k" ++ lit path)
    (lit "Hot") (lit "http://k/soups/hot").

End Fixture.

(** ** Predicates used in the statements *)

(** A word: a non-empty string without white space. *)
Definition word (w : str) : Prop :=
  w <> [] /\ Forall (fun c => isspace c = false) w.

(** A string is tidy when each of its white-space characters is an
    ordinary space that stands between two characters that are not white
    space: no other kind of white space, no run of two, none at the
    ends. *)
Definition tidy (s : str) : Prop :=
  forall pre c post,
    s = pre ++ c :: post ->
    isspace c = true ->
    c = SPACE
    /\ (exists p x, pre = p ++ [x] /\ isspace x = false)
    /\ (exists y q, post = y :: q /\ isspace y = false).

(** A category anchor is valid when it holds a label element and carries
    an [href]; the entry built from it has the label's stripped text as
    its name and the base URL followed by the [href] as its URL. *)
Definition category_entry (self : Scraper.t) (anchor : node)
  (entry : Category.t) : Prop :=
  exists label href,
    find anchor DIV
      (Some (Config.category_text
               (Config.category_classes (Scraper.config self))))
    = Some label
    /\ get_attr anchor HREF = Some href
    /\ Category.name entry = get_text_strip label
    /\ Category.url entry = Scraper.base_url self ++ href.

Definition valid_anchor (self : Scraper.t) (anchor : node) : Prop :=
  exists label href,
    find anchor DIV
      (Some (Config.category_text
               (Config.category_classes (Scraper.config self))))
    = Some label
    /\ get_attr anchor HREF = Some href.

(** The reading of the specification: on a fetch failure the category
    still yields a sub-category value, with the category's name and URL
    and no recipe URL. *)
Definition yields_empty_sub_category (self : Scraper.t) (s : session)
  (category : Category.t) : Prop :=
  exists subs sub,
    _extract_recipe_urls self s category = Return subs
    /\ In sub subs
    /\ SubCategory.sub_category_name sub = Category.name category
    /\ SubCategory.sub_category_url sub = Category.url category
    /\ SubCategory.recipe_urls sub = [].

(** The required elements of a recipe page, as the extraction looks them
    up. *)
Record required_elements (cfg : Config.t) (soup : node) : Type := {
  title_div : node;
  image_div : node;
  img : node;
  src : str;
  description_div : node;
  author_div : node;
  author_tag : node;
  portion_div : node;
  title_found :
    find soup DIV
      (Some (Config.recipe_title (Config.recipe_page_classes cfg)))
    = Some title_div;
  image_found :
    find soup DIV
      (Some (Config.main_image (Config.recipe_page_classes cfg)))
    = Some image_div;
  img_found : find image_div IMG None = Some img;
  src_found : get_attr img SRC = Some src;
  description_found :
    find soup DIV
      (Some (Config.description (Config.recipe_page_classes cfg)))
    = Some description_div;
  author_found :
    find soup DIV
      (Some (Config.author (Config.recipe_page_classes cfg)))
    = Some author_div;
  author_tag_found :
    find author_div
      (Config.author_name (Config.recipe_page_classes cfg)) None
    = Some author_tag;
  portion_found :
    nth_error
      (find_all soup DIV
         (Some (Config.portion (Config.recipe_page_classes cfg)))) 1
    = Some portion_div
}.

(** The record that [extract_recipe_details] builds from the required
    elements and the result of [get_cooking_stages]. *)
Definition record_of (self : Scraper.t)
  (recipe_url sub_category_name sub_category_url : str) (soup : node)
  (req : required_elements (Scraper.config self) soup)
  (stages : option (list Stage.t)) : Recipe.t :=
  {| Recipe.recipe_name := clean_text (get_text (title_div req));
     Recipe.url := recipe_url;
     Recipe.main_category_name := Scraper.main_category_name self;
     Recipe.main_category_url := Scraper.main_category_url self;
     Recipe.sub_category_name := sub_category_name;
     Recipe.sub_category_url := sub_category_url;
     Recipe.main_image_url := src req;
     Recipe.description := clean_text (get_text (description_div req));
     Recipe.author_name := clean_text (get_text (author_tag req));
     Recipe.ingredients :=
       map (fun div => clean_text (get_text div))
           (find_all soup DIV
              (Some (Config.ingredients
                       (Config.recipe_page_classes (Scraper.config self)))));
     Recipe.cooking_stages := stages;
     Recipe.portion :=
       normalize_portion (strip (get_text (portion_div req))) |}.

(** The required elements are present: title, image container with an
    [img] that has a [src], description, author container with its name
    element, and at least two portion indicators. *)
Definition required_present (cfg : Config.t) (soup : node) : Prop :=
  let pc := Config.recipe_page_classes cfg in
  exists title_div image_div img src description_div author_div
         author_tag first second rest,
    find soup DIV (Some (Config.recipe_title pc)) = Some title_div
    /\ find soup DIV (Some (Config.main_image pc)) = Some image_div
    /\ find image_div IMG None = Some img
    /\ get_attr img SRC = Some src
    /\ find soup DIV (Some (Config.description pc)) = Some description_div
    /\ find soup DIV (Some (Config.author pc)) = Some author_div
    /\ find author_div (Config.author_name pc) None = Some author_tag
    /\ find_all soup DIV (Some (Config.portion pc))
       = first :: second :: rest.

(** A required container is missing, and the lookups before it succeed
    or fail in the same way: the title container; the image container;
    or, the image container holding an [img] with a [src], the
    description container, the author container or the name element of
    the author container. *)
Definition missing_container (cfg : Config.t) (soup : node) : Prop :=
  let pc := Config.recipe_page_classes cfg in
  find soup DIV (Some (Config.recipe_title pc)) = None
  \/ find soup DIV (Some (Config.main_image pc)) = None
  \/ ((exists image_div img src,
         find soup DIV (Some (Config.main_image pc)) = Some image_div
         /\ find image_div IMG None = Some img
         /\ get_attr img SRC = Some src)
      /\ (find soup DIV (Some (Config.description pc)) = None
          \/ find soup DIV (Some (Config.author pc)) = None
          \/ exists author_div,
               find soup DIV (Some (Config.author pc)) = Some author_div
               /\ find author_div (Config.author_name pc) None = None)).

(** A stage container is well formed when it holds its label and a
    paragraph; the stage built from it carries their cleaned texts. *)
Definition stage_entry (cfg : Config.t) (item : node) (entry : Stage.t)
  : Prop :=
  exists label par,
    find item DIV
      (Some (Config.stage_count (Config.recipe_page_classes cfg)))
    = Some label
    /\ find item P None = Some par
    /\ Stage.stage entry = clean_text (get_text label)
    /\ Stage.text entry = clean_text (get_text par).

Definition well_formed_stage (cfg : Config.t) (item : node) : Prop :=
  exists label par,
    find item DIV
      (Some (Config.stage_count (Config.recipe_page_classes cfg)))
    = Some label
    /\ find item P None = Some par.

(** The reading of the specification: a page whose stages block is
    absent or malformed yields no record. *)
Definition voids_record (details : outcome (option Recipe.t)) : Prop :=
  details = Return None.

(** The (sub-category, recipe URL) pairs in the order in which
    [scrape_recipe] submits them. *)
Definition submissions (data : list SubCategory.t)
  : list (SubCategory.t * str) :=
  flat_map (fun sub => map (pair sub) (SubCategory.recipe_urls sub)) data.

(** The task submitted for a pair. *)
Definition submitted_task (self : Scraper.t) (s : session)
  (p : SubCategory.t * str) : outcome (option Recipe.t) :=
  extract_recipe_details self s (snd p)
    (SubCategory.sub_category_name (fst p))
    (SubCategory.sub_category_url (fst p)).

(** The records among the results, and the number of absent results. *)
Definition records (results : list (option Recipe.t)) : list Recipe.t :=
  flat_map (fun o => match o with Some r => [r] | None => [] end) results.

Definition count_absent (results : list (option Recipe.t)) : nat :=
  length (filter (fun o => match o with Some _ => false | None => true end)
                 results).

(** The reading of the specification: the sequence handed to persistence
    holds the successful records only. *)
Definition discards_absents (cfg : Config.t) (s : session) : Prop :=
  exists results,
    main cfg s = Return (Some results)
    /\ length results = 2
    /\ ~ In None results.

(** ** Further predicates and fixture pages *)

(** A stage container that lacks its label or its paragraph. *)
Definition malformed_stage (cfg : Config.t) (item : node) : Prop :=
  find item DIV
    (Some (Config.stage_count (Config.recipe_page_classes cfg))) = None
  \/ find item P None = None.

(** The URL that [_extract_recipe_urls] builds from a recipe link. *)
Definition recipe_url_of (self : Scraper.t) (link : node) (u : str)
  : Prop :=
  exists href,
    get_attr link HREF = Some href /\ u = Scraper.base_url self ++ href.

(** The element expression of the comprehension in
    [_extract_recipe_urls]. *)
Definition link_url (self : Scraper.t) (link : node) : outcome str :=
  href <- getitem (Some link) HREF ;;
  Return (Scraper.base_url self ++ href).

(** A string under the base URL of the scraper. *)
Definition under_base_url (self : Scraper.t) (u : str) : Prop :=
  exists href, u = Scraper.base_url self ++ href.

(** The six containers that the specification lists for a recipe page
    are on the page: title, image, description, author, a portion
    indicator and a cooking stage. *)
Definition containers_present (cfg : Config.t) (soup : node) : Prop :=
  let pc := Config.recipe_page_classes cfg in
  find soup DIV (Some (Config.recipe_title pc)) <> None
  /\ find soup DIV (Some (Config.main_image pc)) <> None
  /\ find soup DIV (Some (Config.description pc)) <> None
  /\ find soup DIV (Some (Config.author pc)) <> None
  /\ find_all soup DIV (Some (Config.portion pc)) <> []
  /\ find_all soup DIV (Some (Config.cooking_stages pc)) <> [].

(** The reading of the specification: with the six containers on the
    page and no ingredient element, a record with an empty ingredient
    list is returned. *)
Definition returns_record_without_ingredients
  (details : outcome (option Recipe.t)) : Prop :=
  exists r, details = Return (Some r) /\ Recipe.ingredients r = [].

(** Variants of the fixture: an index page with an anchor that has no
    label, one with an anchor that has no [href], a listing with a link
    that has no [href], and a configuration whose target category is not
    on the index page. *)
Module Variants.

Definition unlabeled_anchor : node := Fixture.link "cat" "/stews" [].

Definition hrefless_anchor : node :=
  Tag A [lit "cat"] [] [Fixture.div "cat-text" [Fixture.txt "Stews"]].

Definition hrefless_link : node := Tag A [lit "recipe"] [] [].

Definition unlabeled_index : node :=
  Fixture.category_page
    [Fixture.category_anchor "/salads" "Salads"; unlabeled_anchor;
     Fixture.category_anchor "/soups" "Soups"].

Definition hrefless_index : node :=
  Fixture.category_page
    [Fixture.category_anchor "/salads" "Salads"; hrefless_anchor;
     Fixture.category_anchor "/soups" "Soups"].

Definition hrefless_listing : node :=
  Fixture.document
    [Fixture.div "recipes"
       [Fixture.link "recipe" "/r1" []; hrefless_link]].

(** Recipe pages with the six containers and no ingredient element: one
    whose author container holds no name element, one whose image
    container holds no [img] and one with a single portion indicator. *)
Definition anonymous_page : node :=
  Fixture.document
    ([Fixture.title_part; Fixture.image_part; Fixture.description_part;
      Fixture.div "author" []; Fixture.stage_part]
     ++ Fixture.portion_parts (lit "2")).

Definition imageless_page : node :=
  Fixture.document
    ([Fixture.title_part; Fixture.div "image" [];
      Fixture.description_part; Fixture.author_part; Fixture.stage_part]
     ++ Fixture.portion_parts (lit "2")).

Definition single_portion_page : node :=
  Fixture.document
    [Fixture.title_part; Fixture.image_part; Fixture.description_part;
     Fixture.author_part; Fixture.stage_part;
     Fixture.div "portion" [Fixture.txt "30 min"]].

Definition site : session :=
  Fixture.route
    [Fixture.serve "http://k/r10" anonymous_page;
     Fixture.serve "http://k/r11" imageless_page;
     Fixture.serve "http://k/r12" single_portion_page;
     Fixture.serve "http://k/unlabeled" unlabeled_index;
     Fixture.serve "http://k/hrefless" hrefless_index;
     Fixture.serve "http://k/bare" (Fixture.document []);
     Fixture.serve "http://k/soups/hot" hrefless_listing;
     Fixture.serve "http://k/soups/cold" (Fixture.document [])].

Definition details (path : string) : outcome (option Recipe.t) :=
  extract_recipe_details Fixture.scraper site (lit "http://k" ++ lit path)
    (lit "Hot") (lit "http://k/soups/hot").

(** The ingredient elements of a page of the fixture. *)
Definition ingredient_elements (page : node) : list node :=
  find_all page DIV
    (Some (Config.ingredients (Config.recipe_page_classes Fixture.cfg))).

Definition cfg_stews : Config.t :=
  {| Config.base_url := Config.base_url Fixture.cfg;
     Config.categories_url := Config.categories_url Fixture.cfg;
     Config.main_category_name := lit "Stews";
     Config.category_classes := Config.category_classes Fixture.cfg;
     Config.recipes_classes := Config.recipes_classes Fixture.cfg;
     Config.recipe_page_classes :=
       Config.recipe_page_classes Fixture.cfg |}.

End Variants.

(** * Properties *)

(** ** Text cleaning *)

Lemma split_cons (c : char) (s : str) :
  split (c :: s) =
  if isspace c then split s
  else match s with
       | [] => [[c]]
       | d :: _ =>
           if isspace d then [c] :: split s
           else match split s with
                | w :: ws => (c :: w) :: ws
                | [] => [[c]]
                end
       end.
Proof. reflexivity. Qed.

Lemma split_words (s : str) : Forall word (split s).
Proof.
  induction s as [|c s IH]; simpl; [constructor|].
  destruct (isspace c) eqn:Hc; [exact IH|].
  assert (Hone : word [c]) by (split; [discriminate | repeat constructor; exact Hc]).
  destruct s as [|d s']; [constructor; [exact Hone | constructor]|].
  destruct (isspace d) eqn:Hd; [constructor; assumption|].
  destruct (split (d :: s')) as [|w ws]; [constructor; [exact Hone | constructor]|].
  inversion IH as [|? ? [Hne Hw] Hws]; subst.
  constructor; [|exact Hws].
  split; [discriminate | constructor; assumption].
Qed.

Lemma split_word_app (w r : str) :
  word w ->
  (r = [] \/ exists d r', r = d :: r' /\ isspace d = true) ->
  split (w ++ r) = w :: split r.
Proof.
  intros [Hne Hw] Hr.
  induction w as [|c w IH]; [contradiction|].
  inversion Hw as [|? ? Hc Hw']; subst.
  destruct w as [|c' w'].
  - simpl. rewrite Hc.
    destruct Hr as [->|(d & r' & -> & Hd)]; [reflexivity|].
    rewrite Hd. reflexivity.
  - assert (Hc' : isspace c' = false) by (inversion Hw'; assumption).
    change ((c :: c' :: w') ++ r) with (c :: c' :: w' ++ r).
    rewrite split_cons.
    change (c' :: w' ++ r) with ((c' :: w') ++ r).
    rewrite Hc, Hc', IH; [reflexivity | discriminate | assumption].
Qed.

Lemma split_join (ws : list str) :
  Forall word ws -> split (join [SPACE] ws) = ws.
Proof.
  induction ws as [|w ws IH]; intros H; [reflexivity|].
  inversion H as [|? ? Hw Hws]; subst.
  destruct ws as [|w2 ws'].
  - simpl. rewrite <- (app_nil_r w) at 1.
    rewrite split_word_app; [reflexivity | assumption | now left].
  - change (join [SPACE] (w :: w2 :: ws'))
      with (w ++ SPACE :: join [SPACE] (w2 :: ws')).
    rewrite split_word_app; [| assumption | right; eauto].
    change (split (SPACE :: join [SPACE] (w2 :: ws')))
      with (split (join [SPACE] (w2 :: ws'))).
    now rewrite IH.
Qed.

(** Replacing one white-space character by another does not move the
    word boundaries. *)
Lemma split_replace (a b : char) (s : str) :
  isspace a = true -> isspace b = true ->
  split (replace a b s) = split s.
Proof.
  intros Ha Hb.
  unfold replace.
  set (f := fun c => if char_eqb c a then b else c).
  assert (Hsp : forall c, isspace (f c) = isspace c).
  { intros c. unfold f, char_eqb.
    destruct (N.eqb_spec c a); [subst; congruence | reflexivity]. }
  assert (Hfix : forall c, isspace c = false -> f c = c).
  { intros c Hc. unfold f, char_eqb.
    destruct (N.eqb_spec c a); [subst; congruence | reflexivity]. }
  induction s as [|c s IH]; [reflexivity|].
  destruct s as [|d s'].
  - simpl. rewrite (Hsp c).
    destruct (isspace c) eqn:Hc; [reflexivity|].
    now rewrite (Hfix c Hc).
  - change (map f (c :: d :: s')) with (f c :: f d :: map f s').
    change (map f (d :: s')) with (f d :: map f s') in IH.
    rewrite (split_cons (f c)), (split_cons c), IH, (Hsp c), (Hsp d).
    destruct (isspace c) eqn:Hc; [reflexivity|].
    now rewrite (Hfix c Hc).
Qed.

Lemma app_cons_cases {T : Type} (l1 : list T) (a : T) (l2 pre : list T)
  (c : T) (post : list T) :
  l1 ++ a :: l2 = pre ++ c :: post ->
  (exists m, l1 = pre ++ c :: m /\ post = m ++ a :: l2)
  \/ (pre = l1 /\ c = a /\ post = l2)
  \/ (exists m, pre = l1 ++ a :: m /\ l2 = m ++ c :: post).
Proof.
  revert pre. induction l1 as [|x l1 IH]; intros pre H.
  - destruct pre as [|y pre]; simpl in H.
    + injection H as -> ->. right; left. auto.
    + injection H as -> ->. right; right. exists pre. auto.
  - destruct pre as [|y pre]; simpl in H.
    + injection H as -> <-. left. exists l1. auto.
    + injection H as -> H.
      destruct (IH _ H) as [(m & -> & ->)|[(-> & -> & ->)|(m & -> & ->)]].
      * left. exists m. auto.
      * right; left. auto.
      * right; right. exists m. auto.
Qed.

Lemma word_no_space (w pre post : str) (c : char) :
  word w -> w = pre ++ c :: post -> isspace c = true -> False.
Proof.
  intros [_ Hw] -> Hc.
  apply Forall_app in Hw as [_ Hw]. inversion Hw; congruence.
Qed.

Lemma word_last (w : str) :
  word w -> exists p x, w = p ++ [x] /\ isspace x = false.
Proof.
  intros [Hne Hw].
  destruct (exists_last Hne) as (p & x & ->).
  exists p, x. split; [reflexivity|].
  apply Forall_app in Hw as [_ Hw]. now inversion Hw.
Qed.

Lemma join_head (w : str) (ws : list str) :
  word w ->
  exists y q, join [SPACE] (w :: ws) = y :: q /\ isspace y = false.
Proof.
  intros [Hne Hw].
  destruct w as [|y w']; [contradiction|].
  inversion Hw; subst.
  destruct ws; simpl; eauto.
Qed.

Lemma join_tidy (ws : list str) :
  Forall word ws -> tidy (join [SPACE] ws).
Proof.
  induction ws as [|w ws IH]; intros H pre c post Heq Hc.
  - destruct pre; discriminate.
  - inversion H as [|? ? Hw Hws]; subst.
    destruct ws as [|w2 ws'].
    + exfalso. eapply word_no_space; eauto.
    + change (join [SPACE] (w :: w2 :: ws'))
        with (w ++ SPACE :: join [SPACE] (w2 :: ws')) in Heq.
      apply app_cons_cases in Heq
        as [(m & Hin & _)|[(-> & -> & ->)|(m & -> & Hj)]].
      * exfalso. eapply word_no_space; eauto.
      * split; [reflexivity|]. split.
        -- now apply word_last.
        -- inversion Hws; subst. now apply join_head.
      * destruct (IH Hws _ _ _ Hj Hc) as (-> & (p & x & -> & Hx) & Hpost).
        split; [reflexivity|]. split; [|exact Hpost].
        exists (w ++ SPACE :: p), x. split; [|exact Hx].
        now rewrite <- app_assoc.
Qed.

Lemma tidy_strip (s : str) : tidy s -> strip s = s.
Proof.
  intros Ht. unfold strip, rstrip.
  assert (Hl : lstrip s = s).
  { destruct s as [|y q]; [reflexivity|]. simpl.
    destruct (isspace y) eqn:Hy; [|reflexivity].
    destruct (Ht [] y q eq_refl Hy) as (_ & (p & x & Hp & _) & _).
    destruct p; discriminate. }
  rewrite Hl.
  destruct (rev s) as [|x r] eqn:Hr.
  - apply (f_equal (@rev _)) in Hr. rewrite rev_involutive in Hr.
    now subst.
  - assert (Hs : s = rev r ++ [x]).
    { apply (f_equal (@rev _)) in Hr. now rewrite rev_involutive in Hr. }
    simpl. destruct (isspace x) eqn:Hx.
    + destruct (Ht (rev r) x [] Hs Hx) as (_ & _ & (y & q & Hq & _)).
      discriminate.
    + simpl. now rewrite Hs.
Qed.

(** C7.  [clean_text] keeps the words of its input (the maximal runs of
    characters that are not white space) in order; in its result every
    white-space character is an ordinary space standing alone between two
    non-white-space characters, so line breaks and non-breaking spaces
    are replaced, every run of white space is collapsed to one space and
    both ends are trimmed; and the sample text of the specification is
    cleaned to "Step one two". *)
Theorem clean_text_normalizes :
  (forall text : str,
     split (clean_text text) = split text
     /\ tidy (clean_text text)
     /\ strip (clean_text text) = clean_text text)
  /\ clean_text (lit "Step" ++ [NEWLINE; NBSP] ++ lit " one   two")
     = lit "Step one two".
Proof.
  split; [|reflexivity].
  intros text. unfold clean_text.
  set (s := replace NBSP SPACE (replace NEWLINE SPACE text)).
  assert (Hs : split s = split text).
  { unfold s. rewrite !split_replace; reflexivity. }
  assert (Ht : tidy (join [SPACE] (split s)))
    by (apply join_tidy, split_words).
  split; [|split].
  - rewrite split_join; [exact Hs | apply split_words].
  - exact Ht.
  - apply tidy_strip, Ht.
Qed.

(** ** Auxiliary facts on strings and outcomes *)

Lemma str_eqb_eq (s t : str) : str_eqb s t = true <-> s = t.
Proof.
  revert t. induction s as [|a s IH]; intros [|b t]; simpl;
    try (split; [discriminate | discriminate]); [tauto|].
  unfold char_eqb. rewrite andb_true_iff, N.eqb_eq, IH.
  split; [intros [-> ->]; reflexivity | intros H; injection H; auto].
Qed.

Lemma str_eqb_refl (s : str) : str_eqb s s = true.
Proof. now apply str_eqb_eq. Qed.

Lemma str_eqb_neq (s t : str) : str_eqb s t = false <-> s <> t.
Proof.
  rewrite <- str_eqb_eq. destruct (str_eqb s t); split; congruence.
Qed.

(** A comprehension returns exactly when each of its elements does, and
    then its result lists the elements' values in order. *)
Lemma comprehension_Return {T U : Type} (f : T -> outcome U)
  (l : list T) (bs : list U) :
  comprehension f l = Return bs <->
  Forall2 (fun a b => f a = Return b) l bs.
Proof.
  revert bs. induction l as [|a l IH]; intros bs; simpl.
  - split.
    + intros H. injection H as <-. constructor.
    + intros H. inversion H. reflexivity.
  - split.
    + destruct (f a) as [b|e] eqn:Hfa; simpl; [|discriminate].
      destruct (comprehension f l) as [bs'|e] eqn:Hl; simpl; [|discriminate].
      intros H. injection H as <-.
      constructor; [exact Hfa | now apply IH].
    + intros H. inversion H as [|? b ? bs' Hfa Hrest]; subst.
      rewrite Hfa. simpl.
      apply IH in Hrest. rewrite Hrest. reflexivity.
Qed.

(** An exception of a comprehension is the exception of one of its
    elements. *)
Lemma comprehension_Raise {T U : Type} (f : T -> outcome U)
  (l : list T) (e : exn) :
  comprehension f l = Raise e -> exists a, In a l /\ f a = Raise e.
Proof.
  induction l as [|a l IH]; simpl; [discriminate|].
  destruct (f a) as [b|e'] eqn:Hfa; simpl.
  - destruct (comprehension f l) as [bs|e'] eqn:Hl; simpl; [discriminate|].
    intros H. injection H as ->.
    destruct (IH eq_refl) as (x & Hin & Hx). eauto.
  - intros H. injection H as ->. eauto.
Qed.

Lemma comprehension_total {T U : Type} (f : T -> outcome U) (l : list T) :
  (forall a, In a l -> exists b, f a = Return b) ->
  exists bs, comprehension f l = Return bs.
Proof.
  intros H. destruct (comprehension f l) as [bs|e] eqn:Hc; [eauto|].
  apply comprehension_Raise in Hc as (a & Hin & Ha).
  destruct (H a Hin) as (b & Hb). congruence.
Qed.

Lemma Forall2_nth_error {T U : Type} (R : T -> U -> Prop)
  (l : list T) (l' : list U) :
  Forall2 R l l' ->
  forall i a, nth_error l i = Some a ->
  exists b, nth_error l' i = Some b /\ R a b.
Proof.
  induction 1 as [|x y l l' Hxy _ IH]; intros [|i] a Hi; simpl in *;
    try discriminate.
  - injection Hi as <-. eauto.
  - eauto.
Qed.

(** ** Category resolution *)

(** C6.  [get_one_category_url] returns [None] when no category of the
    sequence has the target name, and otherwise the URL of the first
    category, in sequence order, whose name is the target name. *)
Theorem get_one_category_url_first_match (self : Scraper.t)
  (categories : list Category.t) :
  ((forall c, In c categories ->
      Category.name c <> Scraper.main_category_name self) ->
   get_one_category_url self categories = None)
  /\ (forall before c after,
        categories = before ++ c :: after ->
        Category.name c = Scraper.main_category_name self ->
        (forall b, In b before ->
           Category.name b <> Scraper.main_category_name self) ->
        get_one_category_url self categories = Some (Category.url c)).
Proof.
  unfold get_one_category_url.
  set (target := Scraper.main_category_name self).
  split.
  - induction categories as [|c cs IH]; intros H; [reflexivity|].
    simpl.
    assert (Hc : str_eqb (Category.name c) target = false)
      by (apply str_eqb_neq, H; now left).
    rewrite Hc. apply IH. intros c' Hin. apply H. now right.
  - intros before c after -> Hname Hbefore.
    induction before as [|b before IH]; simpl.
    + rewrite Hname, str_eqb_refl. reflexivity.
    + assert (Hb : str_eqb (Category.name b) target = false)
        by (apply str_eqb_neq, Hbefore; now left).
      rewrite Hb. apply IH. intros b' Hin. apply Hbefore. now right.
Qed.

Lemma get_one_category_url_first_match_witness :
  get_one_category_url Fixture.scraper [Fixture.cold] = None
  /\ get_one_category_url Fixture.scraper
       [Fixture.cold;
        {| Category.name := lit "Soups"; Category.url := lit "/first" |};
        {| Category.name := lit "Soups"; Category.url := lit "/second" |}]
     = Some (lit "/first").
Proof.
  split.
  - apply (proj1 (get_one_category_url_first_match Fixture.scraper
                    [Fixture.cold])).
    intros c [<-|[]]. discriminate.
  - apply (proj2 (get_one_category_url_first_match Fixture.scraper _)
             [Fixture.cold]
             {| Category.name := lit "Soups"; Category.url := lit "/first" |}
             [{| Category.name := lit "Soups";
                 Category.url := lit "/second" |}]).
    + reflexivity.
    + reflexivity.
    + intros b [<-|[]]. discriminate.
Defined.

(** ** Category listing *)

(** C8.  When the fetch fails [get_categories] returns the empty list.
    When the page is fetched, holds a categories container and all the
    category anchors of the container are valid, [get_categories] returns
    one entry per anchor, in document order, each with the anchor's label
    text as name and the base URL followed by the anchor's [href] as
    URL. *)
Theorem get_categories_lists_anchors (self : Scraper.t) (s : session)
  (url : str) :
  (get_soup s url = None -> get_categories self s url = Return [])
  /\ (forall soup categories_div,
        get_soup s url = Some soup ->
        find soup DIV
          (Some (Config.main_category
                   (Config.category_classes (Scraper.config self))))
        = Some categories_div ->
        let anchors :=
          find_all categories_div A
            (Some (Config.category_item
                     (Config.category_classes (Scraper.config self)))) in
        (forall a, In a anchors -> valid_anchor self a) ->
        exists entries,
          get_categories self s url = Return entries
          /\ length entries = length anchors
          /\ Forall2 (category_entry self) anchors entries).
Proof.
  split.
  - intros H. unfold get_categories. rewrite H. reflexivity.
  - intros soup categories_div Hsoup Hdiv anchors Hvalid.
    unfold get_categories.
    rewrite Hsoup. cbv zeta. rewrite Hdiv. simpl bind. fold anchors.
    destruct (comprehension_total (category_of_anchor self) anchors)
      as (entries & Hentries).
    { intros a Hin. destruct (Hvalid a Hin) as (label & href & Hl & Hh).
      unfold category_of_anchor, getitem. cbv zeta.
      rewrite Hl, Hh. simpl. eauto. }
    exists entries. rewrite Hentries. simpl.
    split; [reflexivity|].
    apply comprehension_Return in Hentries.
    split; [symmetry; eapply Forall2_length; eauto|].
    clear Hvalid.
    induction Hentries as [|a b l l' Hab _ IH]; constructor; [|exact IH].
    unfold category_of_anchor, getitem in Hab. cbv zeta in Hab.
    destruct (find a DIV _) as [label|] eqn:Hl; simpl in Hab; [|discriminate].
    destruct (get_attr a HREF) as [href|] eqn:Hh; simpl in Hab;
      [|discriminate].
    injection Hab as <-. exists label, href. auto.
Qed.

Lemma get_categories_lists_anchors_witness :
  get_categories Fixture.scraper Fixture.site (lit "http://k/nowhere")
  = Return []
  /\ exists entries,
       get_categories Fixture.scraper Fixture.site (lit "http://k/cat")
       = Return entries
       /\ length entries = 2
       /\ Forall2 (category_entry Fixture.scraper)
            [Fixture.category_anchor "/salads" "Salads";
             Fixture.category_anchor "/soups" " Soups "]
            entries.
Proof.
  split.
  - apply (proj1 (get_categories_lists_anchors Fixture.scraper
                    Fixture.site (lit "http://k/nowhere"))).
    reflexivity.
  - apply (proj2 (get_categories_lists_anchors Fixture.scraper
                    Fixture.site (lit "http://k/cat"))
             (Fixture.category_page
                [Fixture.category_anchor "/salads" "Salads";
                 Fixture.category_anchor "/soups" " Soups "])
             (Fixture.div "cats"
                [Fixture.category_anchor "/salads" "Salads";
                 Fixture.category_anchor "/soups" " Soups "])).
    + reflexivity.
    + reflexivity.
    + intros a Hin. vm_compute in Hin.
      destruct Hin as [<-|[<-|[]]].
      * exists (Fixture.div "cat-text" [Fixture.txt "Salads"]),
               (lit "/salads").
        split; reflexivity.
      * exists (Fixture.div "cat-text" [Fixture.txt " Soups "]),
               (lit "/soups").
        split; reflexivity.
Defined.

(** ** Recipe links of a category *)

(** C3, as stated, fails: the listing page of the fixture's category
    "Cold" cannot be fetched, and the result holds no sub-category. *)
Lemma fetch_failure_yields_no_sub_category :
  get_soup Fixture.site (Category.url Fixture.cold) = None
  /\ ~ yields_empty_sub_category Fixture.scraper Fixture.site Fixture.cold.
Proof.
  split; [reflexivity|].
  intros (subs & sub & Hsubs & Hin & _).
  vm_compute in Hsubs. injection Hsubs as <-. destruct Hin.
Qed.

(** C3, amended.  For every category whose listing page cannot be
    fetched, [_extract_recipe_urls] returns the empty list, without a
    sub-category value, and does not raise. *)
Theorem extract_recipe_urls_fetch_failure (self : Scraper.t)
  (s : session) (category : Category.t) :
  get_soup s (Category.url category) = None ->
  _extract_recipe_urls self s category = Return [].
Proof.
  intros H. unfold _extract_recipe_urls. rewrite H. reflexivity.
Qed.

Lemma extract_recipe_urls_fetch_failure_witness :
  get_soup Fixture.site (Category.url Fixture.cold) = None
  /\ _extract_recipe_urls Fixture.scraper Fixture.site Fixture.cold
     = Return [].
Proof.
  split; [reflexivity|].
  apply (extract_recipe_urls_fetch_failure Fixture.scraper Fixture.site
           Fixture.cold).
  reflexivity.
Defined.

(** ** Recipe extraction *)

Lemma cooking_stage_raises (cfg : Config.t) (item : node) (e : exn) :
  cooking_stage cfg item = Raise e -> e = AttributeError.
Proof.
  unfold cooking_stage.
  destruct (find item DIV _); simpl; [|congruence].
  destruct (find item P None); simpl; [discriminate|congruence].
Qed.

(** [get_cooking_stages] never raises: a stage container without its
    label or its paragraph makes it return [None]. *)
Lemma get_cooking_stages_returns (soup : node) (cfg : Config.t) :
  exists stages, get_cooking_stages soup cfg = Return stages.
Proof.
  unfold get_cooking_stages. cbv zeta.
  destruct (comprehension (cooking_stage cfg) _) as [stages|e] eqn:Hc;
    simpl; [eauto|].
  apply comprehension_Raise in Hc as (item & _ & Hitem).
  apply cooking_stage_raises in Hitem as ->. simpl. eauto.
Qed.

(** With every stage container well formed, the stages are listed in
    document order. *)
Lemma get_cooking_stages_well_formed (soup : node) (cfg : Config.t) :
  Forall (well_formed_stage cfg)
    (find_all soup DIV
       (Some (Config.cooking_stages (Config.recipe_page_classes cfg)))) ->
  exists stages,
    get_cooking_stages soup cfg = Return (Some stages)
    /\ Forall2 (stage_entry cfg)
         (find_all soup DIV
            (Some (Config.cooking_stages (Config.recipe_page_classes cfg))))
         stages.
Proof.
  intros Hwf. unfold get_cooking_stages. cbv zeta.
  set (stage_divs := find_all soup DIV _) in *.
  destruct (comprehension_total (cooking_stage cfg) stage_divs)
    as (stages & Hstages).
  { intros item Hin. rewrite Forall_forall in Hwf.
    destruct (Hwf item Hin) as (label & par & Hl & Hp).
    unfold cooking_stage. rewrite Hl. simpl. rewrite Hp. simpl. eauto. }
  exists stages. rewrite Hstages. split; [reflexivity|].
  apply comprehension_Return in Hstages. clear Hwf.
  induction Hstages as [|item st l l' Hst _ IH]; constructor; [|exact IH].
  unfold cooking_stage in Hst.
  destruct (find item DIV _) as [label|] eqn:Hl; simpl in Hst;
    [|discriminate].
  destruct (find item P None) as [par|] eqn:Hp; simpl in Hst;
    [|discriminate].
  injection Hst as <-. exists label, par. auto.
Qed.

Lemma required_present_elements (cfg : Config.t) (soup : node) :
  required_present cfg soup -> inhabited (required_elements cfg soup).
Proof.
  intros (t & im & g & sr & d & a & an & p0 & p1 & ps
          & Ht & Him & Hg & Hsr & Hd & Ha & Han & Hp).
  constructor.
  refine (@Build_required_elements cfg soup t im g sr d a an p1
            Ht Him Hg Hsr Hd Ha Han _).
  rewrite Hp. reflexivity.
Qed.

Example portion_bare_word :
  normalize_portion PORTION_WORD = lit "1 " ++ PORTION_WORD.
Proof. reflexivity. Qed.

Example portion_two_unchanged :
  normalize_portion (lit "2 " ++ PORTION_WORD) = lit "2 " ++ PORTION_WORD.
Proof. reflexivity. Qed.

(** One call of [extract_recipe_details] whose page was fetched. *)
Section FetchedPage.

Variables (self : Scraper.t) (s : session).
Variables (recipe_url sub_category_name sub_category_url : str).
Variable soup : node.
Hypothesis fetched : get_soup s recipe_url = Some soup.

Let cfg := Scraper.config self.
Let pc := Config.recipe_page_classes cfg.
Let details :=
  extract_recipe_details self s recipe_url
    sub_category_name sub_category_url.

(** With the required elements present, a record is returned. *)
Lemma extract_recipe_details_record (req : required_elements cfg soup) :
  exists stages,
    get_cooking_stages soup cfg = Return stages
    /\ details
       = Return (Some (record_of self recipe_url sub_category_name
                         sub_category_url req stages)).
Proof.
  destruct (get_cooking_stages_returns soup cfg) as (stages & Hstages).
  exists stages. split; [exact Hstages|].
  unfold details, cfg in *.
  unfold extract_recipe_details, record_of.
  rewrite fetched. cbv zeta.
  rewrite (title_found req). simpl bind.
  rewrite (image_found req). simpl bind.
  rewrite (img_found req). unfold getitem. rewrite (src_found req).
  simpl bind.
  rewrite (description_found req). simpl bind.
  rewrite (author_found req). simpl bind.
  rewrite (author_tag_found req). simpl bind.
  rewrite Hstages. simpl bind.
  unfold index. rewrite (portion_found req). reflexivity.
Qed.

(** A returned record was built from the required elements. *)
Lemma extract_recipe_details_inv (r : Recipe.t) :
  details = Return (Some r) ->
  exists (req : required_elements cfg soup) stages,
    get_cooking_stages soup cfg = Return stages
    /\ r = record_of self recipe_url sub_category_name sub_category_url
             req stages.
Proof.
  intros H.
  unfold details, cfg in *.
  unfold extract_recipe_details in H.
  rewrite fetched in H. cbv zeta in H.
  destruct (find soup DIV (Some (Config.recipe_title _)))
    as [t|] eqn:Ht; simpl bind in H; [|discriminate].
  destruct (find soup DIV (Some (Config.main_image _)))
    as [im|] eqn:Him; simpl bind in H; [|discriminate].
  unfold getitem in H.
  destruct (find im IMG None) as [g|] eqn:Hg; simpl bind in H;
    [|discriminate].
  destruct (get_attr g SRC) as [sr|] eqn:Hsr; simpl bind in H;
    [|discriminate].
  destruct (find soup DIV (Some (Config.description _)))
    as [d|] eqn:Hd; simpl bind in H; [|discriminate].
  destruct (find soup DIV (Some (Config.author _)))
    as [a|] eqn:Ha; simpl bind in H; [|discriminate].
  destruct (find a _ None) as [an|] eqn:Han; simpl bind in H;
    [|discriminate].
  destruct (get_cooking_stages soup (Scraper.config self))
    as [stages|e] eqn:Hst; simpl bind in H;
    [|destruct e; discriminate].
  unfold index in H.
  destruct (nth_error _ 1) as [p|] eqn:Hp; simpl in H; [|discriminate].
  injection H as <-.
  exists (Build_required_elements (Scraper.config self) soup
            Ht Him Hg Hsr Hd Ha Han Hp), stages.
  split; reflexivity.
Qed.

Lemma required_present_returns :
  required_present cfg soup ->
  exists r,
    details = Return (Some r)
    /\ Recipe.ingredients r =
       map (fun div => clean_text (get_text div))
         (find_all soup DIV (Some (Config.ingredients pc))).
Proof.
  intros Hreq.
  destruct (required_present_elements Hreq) as [req].
  destruct (extract_recipe_details_record req) as (stages & _ & Hret).
  eexists. split; [exact Hret | reflexivity].
Qed.

(** C5.  On a fetched page with at least two portion indicators, the
    portion of every record returned is the stripped text of the second
    indicator, except that the bare word for "portion" becomes the same
    word preceded by "1 "; and a record is returned whenever the other
    required elements are present too. *)
Theorem portion_is_second_indicator (first second : node)
  (rest : list node) :
  find_all soup DIV (Some (Config.portion pc))
  = first :: second :: rest ->
  (forall r,
     details = Return (Some r) ->
     (strip (get_text second) = PORTION_WORD ->
      Recipe.portion r = ONE_PORTION)
     /\ (strip (get_text second) <> PORTION_WORD ->
         Recipe.portion r = strip (get_text second)))
  /\ (required_present cfg soup ->
      exists r, details = Return (Some r)).
Proof.
  intros Hportion. split.
  - intros r Hr.
    destruct (extract_recipe_details_inv Hr) as (req & stages & _ & ->).
    pose proof (portion_found req) as Hp.
    unfold pc, cfg in *. rewrite Hportion in Hp. simpl in Hp.
    injection Hp as Hp.
    unfold record_of. simpl Recipe.portion. rewrite <- Hp.
    unfold normalize_portion. split.
    + intros ->. reflexivity.
    + intros Hne. apply str_eqb_neq in Hne. rewrite Hne. reflexivity.
  - intros Hreq.
    destruct (required_present_returns Hreq) as (r & Hr & _).
    eauto.
Qed.

(** C10, amended.  On a fetched page where the required elements are
    present (the title, the image container with an [img] that has a
    [src], the description, the author container with its name element
    and at least two portion indicators) and no element matches the
    ingredients selector, a record is returned and its ingredient list is
    empty. *)
Theorem extract_recipe_details_without_ingredients :
  required_present cfg soup ->
  find_all soup DIV (Some (Config.ingredients pc)) = [] ->
  exists r,
    details = Return (Some r)
    /\ Recipe.ingredients r = [].
Proof.
  intros Hreq Hnone.
  destruct (required_present_returns Hreq) as (r & Hr & Hingr).
  exists r. split; [exact Hr|].
  rewrite Hingr, Hnone. reflexivity.
Qed.

(** C1, amended.  On a fetched page, [extract_recipe_details] returns
    no record when the title container or the image container is missing
    and, the image container holding an [img] with a [src], when the
    description container, the author container or the author's name
    element is missing.  When the required elements are present it
    returns a record built from them, whatever the stage containers look
    like; and when every stage container (there may be none) holds its
    label and its paragraph, the record's cooking stages are the list of
    the stages in document order. *)
Theorem extract_recipe_details_required_elements :
  (missing_container cfg soup -> details = Return None)
  /\ (required_present cfg soup ->
      exists (req : required_elements cfg soup) stages,
        details
        = Return (Some (record_of self recipe_url sub_category_name
                          sub_category_url req stages))
        /\ (Forall (well_formed_stage cfg)
              (find_all soup DIV (Some (Config.cooking_stages pc))) ->
            exists entries,
              stages = Some entries
              /\ Forall2 (stage_entry cfg)
                   (find_all soup DIV (Some (Config.cooking_stages pc)))
                   entries)).
Proof.
  split.
  - unfold missing_container, details, cfg. cbv zeta.
    unfold extract_recipe_details. rewrite fetched. cbv zeta.
    intros [Ht|[Him|[(im & g & sr & Him & Hg & Hsr) Hrest]]].
    + rewrite Ht. reflexivity.
    + destruct (find soup DIV (Some (Config.recipe_title _)));
        [|reflexivity].
      simpl bind. rewrite Him. reflexivity.
    + destruct (find soup DIV (Some (Config.recipe_title _)));
        [|reflexivity].
      simpl bind. rewrite Him. simpl bind.
      rewrite Hg. unfold getitem. rewrite Hsr. simpl bind.
      destruct Hrest as [Hd|[Ha|(a & Ha & Han)]].
      * rewrite Hd. reflexivity.
      * destruct (find soup DIV (Some (Config.description _)));
          [|reflexivity].
        simpl bind. rewrite Ha. reflexivity.
      * destruct (find soup DIV (Some (Config.description _)));
          [|reflexivity].
        simpl bind. rewrite Ha. simpl bind. rewrite Han. reflexivity.
  - intros Hreq.
    destruct (required_present_elements Hreq) as [req].
    destruct (extract_recipe_details_record req) as (stages & Hst & Hret).
    exists req, stages. split; [exact Hret|].
    intros Hwf.
    destruct (@get_cooking_stages_well_formed soup cfg Hwf)
      as (entries & Hentries & Hall).
    exists entries. split; [congruence | exact Hall].
Qed.

End FetchedPage.

(** The required elements of the fixture's recipe pages. *)
Ltac fixture_elements second :=
  exists Fixture.title_part, Fixture.image_part,
    (Tag IMG [] [(SRC, lit "/red.png")] []), (lit "/red.png"),
    Fixture.description_part, Fixture.author_part,
    (Tag (lit "span") [] [] [Fixture.txt "Nino"]),
    (Fixture.div "portion" [Fixture.txt "30 min"]),
    (Fixture.div "portion" [Text second]), [];
  repeat split; reflexivity.

Lemma portion_is_second_indicator_witness :
  (exists r,
     Fixture.details "/r1" = Return (Some r)
     /\ Recipe.portion r = ONE_PORTION)
  /\ (forall r,
        Fixture.details "/r3" = Return (Some r) ->
        Recipe.portion r = lit "2 " ++ PORTION_WORD).
Proof.
  split.
  - destruct (@portion_is_second_indicator Fixture.scraper Fixture.site
                (lit "http://k/r1") (lit "Hot") (lit "http://k/soups/hot")
                (Fixture.recipe_page PORTION_WORD) eq_refl
                (Fixture.div "portion" [Fixture.txt "30 min"])
                (Fixture.div "portion" [Text PORTION_WORD]) []
                eq_refl) as [Hfield Hreturned].
    destruct Hreturned as (r & Hr); [fixture_elements PORTION_WORD|].
    exists r. split; [exact Hr|].
    apply (Hfield r Hr). reflexivity.
  - intros r Hr.
    destruct (@portion_is_second_indicator Fixture.scraper Fixture.site
                (lit "http://k/r3") (lit "Hot") (lit "http://k/soups/hot")
                (Fixture.recipe_page (lit " 2 " ++ PORTION_WORD ++ lit " "))
                eq_refl
                (Fixture.div "portion" [Fixture.txt "30 min"])
                (Fixture.div "portion"
                   [Text (lit " 2 " ++ PORTION_WORD ++ lit " ")]) []
                eq_refl) as [Hfield _].
    apply (Hfield r Hr). discriminate.
Defined.

Lemma extract_recipe_details_without_ingredients_witness :
  exists r,
    Fixture.details "/r8" = Return (Some r)
    /\ Recipe.ingredients r = [].
Proof.
  apply (@extract_recipe_details_without_ingredients Fixture.scraper
           Fixture.site (lit "http://k/r8") (lit "Hot")
           (lit "http://k/soups/hot") Fixture.no_ingredient_page).
  - reflexivity.
  - fixture_elements (lit "2").
  - reflexivity.
Defined.

(** ** Records kept with malformed stages, and exceptions that escape *)

(** C1, as stated, fails.  The page served at [/r9] has no stage
    container and the page served at [/r4] has a stage container without
    its paragraph; the other required elements are present on both.
    Neither page is voided: the first yields a record with an empty list
    of stages and the second a record whose [cooking_stages] is [None]. *)
Lemma malformed_stages_keep_record :
  required_present Fixture.cfg Fixture.no_stage_page
  /\ find_all Fixture.no_stage_page DIV
       (Some (Config.cooking_stages
                (Config.recipe_page_classes Fixture.cfg))) = []
  /\ ~ voids_record (Fixture.details "/r9")
  /\ required_present Fixture.cfg Fixture.broken_stage_page
  /\ ~ voids_record (Fixture.details "/r4")
  /\ exists r,
       Fixture.details "/r4" = Return (Some r)
       /\ Recipe.cooking_stages r = None.
Proof.
  split; [fixture_elements (lit "2")|].
  split; [reflexivity|].
  split; [intros H; vm_compute in H; discriminate|].
  split; [fixture_elements (lit "2")|].
  split; [intros H; vm_compute in H; discriminate|].
  eexists. split; [vm_compute; reflexivity | reflexivity].
Qed.

Lemma extract_recipe_details_required_elements_witness :
  Fixture.details "/r2" = Return None
  /\ exists r entries,
       Fixture.details "/r1" = Return (Some r)
       /\ Recipe.cooking_stages r = Some entries
       /\ Forall2 (stage_entry Fixture.cfg) [Fixture.stage_part] entries.
Proof.
  split.
  - apply (proj1 (@extract_recipe_details_required_elements
                    Fixture.scraper Fixture.site (lit "http://k/r2")
                    (lit "Hot") (lit "http://k/soups/hot")
                    Fixture.untitled_page eq_refl)).
    left. reflexivity.
  - destruct (proj2 (@extract_recipe_details_required_elements
                       Fixture.scraper Fixture.site (lit "http://k/r1")
                       (lit "Hot") (lit "http://k/soups/hot")
                       (Fixture.recipe_page PORTION_WORD) eq_refl))
      as (req & stages & Hr & Hstages);
      [fixture_elements PORTION_WORD|].
    destruct Hstages as (entries & -> & Hentries).
    { repeat constructor.
      exists (Fixture.div "count" [Fixture.txt "1"]),
             (Tag P [] [] [Fixture.txt "Boil."]).
      split; reflexivity. }
    eexists. exists entries.
    split; [exact Hr|]. split; [reflexivity | exact Hentries].
Defined.

(** C2.  [extract_recipe_details] raises on a page with a single portion
    indicator ([IndexError]), on a page whose image container holds no
    [img] ([TypeError]) and on a page whose [img] has no [src]
    ([KeyError]); only [AttributeError] is handled.  The exception leaves
    [scrape_recipe] and [main] as well. *)
Theorem extract_recipe_details_raises :
  Fixture.details "/r5" = Raise IndexError
  /\ Fixture.details "/r6" = Raise TypeError
  /\ Fixture.details "/r7" = Raise KeyError
  /\ scrape_recipe Fixture.scraper Fixture.site
       [{| SubCategory.sub_category_name := lit "Hot";
           SubCategory.sub_category_url := lit "http://k/soups/hot";
           SubCategory.recipe_urls :=
             [lit "http://k/r1"; lit "http://k/r5"] |}]
     = Raise IndexError
  /\ main Fixture.cfg (Fixture.site_with ["/r1"; "/r5"]%string)
     = Raise IndexError.
Proof. repeat split; reflexivity. Qed.

(** ** The recipe fan-out *)

Lemma scrape_recipe_tasks_submissions (self : Scraper.t) (s : session)
  (data : list SubCategory.t) :
  scrape_recipe_tasks self s data
  = map (submitted_task self s) (submissions data).
Proof.
  unfold scrape_recipe_tasks, submissions.
  induction data as [|sub data IH]; [reflexivity|].
  simpl. rewrite map_app, map_map, IH. reflexivity.
Qed.

Lemma gather_Return {T : Type} (tasks : list (outcome T)) (rs : list T) :
  gather tasks = Return rs <-> tasks = map Return rs.
Proof.
  unfold gather. rewrite comprehension_Return. split.
  - induction 1; simpl; congruence.
  - intros ->. induction rs; constructor; auto.
Qed.

Lemma records_count_absent (results : list (option Recipe.t)) :
  length (records results) + count_absent results = length results.
Proof.
  unfold records, count_absent.
  induction results as [|[r|] results IH]; simpl; lia.
Qed.

Lemma count_absent_In (results : list (option Recipe.t)) :
  0 < count_absent results -> In None results.
Proof.
  unfold count_absent.
  induction results as [|[r|] results IH]; simpl; intros H.
  - lia.
  - right. now apply IH.
  - now left.
Qed.

(** C9.  When [scrape_recipe] returns, its result has one entry per
    submitted pair and the i-th entry is what [extract_recipe_details]
    returned for the i-th pair; and it does return when the extraction of
    every submitted pair returns. *)
Theorem scrape_recipe_preserves_order (self : Scraper.t) (s : session)
  (data : list SubCategory.t) :
  (forall results,
     scrape_recipe self s data = Return results ->
     length results = length (submissions data)
     /\ forall i sub recipe_url,
          nth_error (submissions data) i = Some (sub, recipe_url) ->
          exists r,
            nth_error results i = Some r
            /\ extract_recipe_details self s recipe_url
                 (SubCategory.sub_category_name sub)
                 (SubCategory.sub_category_url sub) = Return r)
  /\ ((forall sub recipe_url,
         In (sub, recipe_url) (submissions data) ->
         exists r,
           extract_recipe_details self s recipe_url
             (SubCategory.sub_category_name sub)
             (SubCategory.sub_category_url sub) = Return r) ->
      exists results, scrape_recipe self s data = Return results).
Proof.
  unfold scrape_recipe, gather.
  rewrite scrape_recipe_tasks_submissions.
  split.
  - intros results H.
    apply comprehension_Return in H.
    apply Forall2_flip in H.
    assert (Hall : Forall2 (fun p r => submitted_task self s p = Return r)
                     (submissions data) results).
    { remember (map (submitted_task self s) (submissions data)) as tasks
        eqn:Htasks.
      revert Htasks. generalize (submissions data) as ps.
      induction H as [|r t rs ts Hrt _ IH]; intros ps Hps.
      - destruct ps; [constructor | discriminate].
      - destruct ps as [|p ps]; [discriminate|].
        simpl in Hps. injection Hps as -> ->.
        constructor; [exact Hrt | now apply IH]. }
    split.
    + symmetry. eapply Forall2_length; eauto.
    + intros i sub recipe_url Hi.
      destruct (Forall2_nth_error Hall _ Hi) as (r & Hr & Htask).
      exists r. split; [exact Hr | exact Htask].
  - intros Hall.
    apply comprehension_total.
    intros t Hin. apply in_map_iff in Hin as ([sub recipe_url] & <- & Hin).
    destruct (Hall sub recipe_url Hin) as (r & Hr).
    exists r. exact Hr.
Qed.

Lemma scrape_recipe_preserves_order_witness :
  exists results,
    scrape_recipe Fixture.scraper Fixture.site [Fixture.hot_recipes]
    = Return results
    /\ length results = 3
    /\ nth_error results 1 = Some None.
Proof.
  destruct (scrape_recipe_preserves_order Fixture.scraper Fixture.site
              [Fixture.hot_recipes]) as [Horder Hreturns].
  destruct Hreturns as (results & Hresults).
  { intros sub recipe_url Hin. vm_compute in Hin.
    destruct Hin as [Hin|[Hin|[Hin|[]]]];
      injection Hin as <- <-; eexists; vm_compute; reflexivity. }
  exists results. split; [exact Hresults|].
  destruct (Horder results Hresults) as [Hlen Hnth].
  split; [exact Hlen|].
  destruct (Hnth 1 Fixture.hot_recipes (lit "http://k/r2") eq_refl)
    as (r & Hr & Hextract).
  vm_compute in Hextract. injection Hextract as <-. exact Hr.
Defined.

(** C4.  On the fixture site three recipe pages are submitted and the
    second lacks its title container: [scrape_recipe] returns the list of
    [asyncio.gather] as it is and [main] passes it on, so the sequence
    handed to persistence has three entries, the second of which is
    [None], instead of the two records. *)
Lemma main_keeps_absent_entry :
  (exists r1 r3,
     scrape_recipe_tasks Fixture.scraper Fixture.site [Fixture.hot_recipes]
     = [Return (Some r1); Return None; Return (Some r3)]
     /\ main Fixture.cfg Fixture.site
        = Return (Some [Some r1; None; Some r3]))
  /\ ~ discards_absents Fixture.cfg Fixture.site.
Proof.
  split.
  - do 2 eexists. split; vm_compute; reflexivity.
  - intros (results & Hmain & Hlen & _).
    vm_compute in Hmain. injection Hmain as <-. discriminate.
Qed.

(** The same on every site: when the crawl reaches the fan-out with
    three submitted recipe pages none of which raises, one of them
    yielding no record, the absent outcome stays in the sequence that
    [main] passes on. *)
Theorem main_keeps_absent_results (cfg : Config.t) (s : session)
  (scraper : Scraper.t) (main_category_url : str)
  (sub_categories : list Category.t)
  (recipes : list (list SubCategory.t))
  (outcomes : list (option Recipe.t)) :
  initialize_main_category (init cfg) s = Return scraper ->
  Scraper.main_category_url scraper = Some main_category_url ->
  main_category_url <> [] ->
  get_categories scraper s main_category_url = Return sub_categories ->
  get_all_recipes_urls scraper s sub_categories = Return recipes ->
  scrape_recipe_tasks scraper s (List.concat recipes)
  = map Return outcomes ->
  length outcomes = 3 ->
  count_absent outcomes = 1 ->
  main cfg s = Return (Some outcomes)
  /\ length (records outcomes) = 2
  /\ In None outcomes.
Proof.
  intros Hinit Hurl Hne Hsubs Hrecipes Htasks Hlen Habsent.
  split; [|split].
  - unfold main. cbv zeta. rewrite Hinit. simpl bind. rewrite Hurl.
    destruct main_category_url as [|c u]; [contradiction|].
    simpl truthy. cbv iota.
    rewrite Hsubs. simpl bind. rewrite Hrecipes. simpl bind.
    unfold scrape_recipe.
    apply gather_Return in Htasks. rewrite Htasks. reflexivity.
  - pose proof (records_count_absent outcomes). lia.
  - apply count_absent_In. lia.
Qed.

Lemma main_keeps_absent_results_witness :
  exists r1 r3,
    main Fixture.cfg Fixture.site = Return (Some [Some r1; None; Some r3])
    /\ length (records [Some r1; None; Some r3]) = 2
    /\ In None [Some r1; None; Some r3].
Proof.
  do 2 eexists.
  apply (@main_keeps_absent_results Fixture.cfg Fixture.site
           Fixture.scraper (lit "http://k/soups")
           [Fixture.hot] [[Fixture.hot_recipes]]).
  - vm_compute. reflexivity.
  - reflexivity.
  - discriminate.
  - vm_compute. reflexivity.
  - vm_compute. reflexivity.
  - vm_compute. reflexivity.
  - reflexivity.
  - reflexivity.
Defined.

(** * Further properties of the scraper *)

(** ** More on text cleaning *)

Lemma clean_text_tidy (text : str) : tidy (clean_text text).
Proof. unfold clean_text. apply join_tidy, split_words. Qed.

Lemma tidy_spaces (s : str) :
  tidy s -> Forall (fun c => isspace c = true -> c = SPACE) s.
Proof.
  intros Ht. apply Forall_forall. intros c Hin Hc.
  apply in_split in Hin as (pre & post & ->).
  now destruct (Ht pre c post eq_refl Hc).
Qed.

Lemma replace_tidy (a : char) (s : str) :
  isspace a = true -> tidy s -> replace a SPACE s = s.
Proof.
  intros Ha Ht. apply tidy_spaces in Ht. unfold replace.
  induction Ht as [|c s Hc _ IH]; [reflexivity|].
  simpl. rewrite IH. f_equal.
  unfold char_eqb. destruct (N.eqb_spec c a) as [->|]; [|reflexivity].
  symmetry. now apply Hc.
Qed.

Lemma split_nil_iff (s : str) :
  split s = [] <-> Forall (fun c => isspace c = true) s.
Proof.
  induction s as [|c s IH]; [split; constructor|].
  rewrite split_cons. destruct (isspace c) eqn:Hc.
  - rewrite IH. split.
    + intros H. constructor; assumption.
    + intros H. now inversion H.
  - split.
    + destruct s as [|d s']; [discriminate|].
      destruct (isspace d); [discriminate|].
      destruct (split (d :: s')); discriminate.
    + intros H. inversion H. congruence.
Qed.

Lemma join_nil_iff (ws : list str) :
  Forall word ws -> (join [SPACE] ws = [] <-> ws = []).
Proof.
  intros H. split; [|intros ->; reflexivity].
  destruct ws as [|w ws]; [reflexivity|].
  inversion H as [|? ? Hw _]; subst.
  destruct (join_head ws Hw) as (y & q & Hj & _).
  rewrite Hj. discriminate.
Qed.

(** X1.  Cleaning a cleaned text changes nothing. *)
Theorem clean_text_idempotent (text : str) :
  clean_text (clean_text text) = clean_text text.
Proof.
  pose proof (clean_text_tidy text) as Ht.
  unfold clean_text at 1.
  rewrite (@replace_tidy NEWLINE (clean_text text) eq_refl Ht).
  rewrite (@replace_tidy NBSP (clean_text text) eq_refl Ht).
  unfold clean_text. rewrite split_join; [reflexivity | apply split_words].
Qed.

(** X2.  The cleaned text is empty exactly when the text consists of
    white space only (in particular when it is empty). *)
Theorem clean_text_empty_iff (text : str) :
  clean_text text = [] <-> Forall (fun c => isspace c = true) text.
Proof.
  unfold clean_text.
  rewrite join_nil_iff by apply split_words.
  rewrite !split_replace by reflexivity.
  apply split_nil_iff.
Qed.

(** ** Stripped strings *)

(** A string that neither starts nor ends with white space. *)
Lemma lstrip_head (s : str) :
  lstrip s = [] \/ exists c u, lstrip s = c :: u /\ isspace c = false.
Proof.
  induction s as [|c s IH]; [now left|].
  simpl. destruct (isspace c) eqn:Hc; [exact IH|].
  right. eauto.
Qed.

Lemma lstrip_app_nonspace (l : str) (c : char) :
  isspace c = false -> lstrip (l ++ [c]) = lstrip l ++ [c].
Proof.
  intros Hc. induction l as [|d l IH]; simpl.
  - now rewrite Hc.
  - destruct (isspace d); [exact IH | reflexivity].
Qed.

Lemma strip_ends (s : str) :
  strip s = []
  \/ ((exists c u, strip s = c :: u /\ isspace c = false)
      /\ (exists u c, strip s = u ++ [c] /\ isspace c = false)).
Proof.
  unfold strip, rstrip.
  destruct (lstrip_head s) as [->|(c & u & -> & Hc)]; [now left|].
  right. simpl rev.
  rewrite (@lstrip_app_nonspace (rev u) c Hc), rev_app_distr. simpl.
  split; [eauto|].
  destruct (lstrip_head (rev u)) as [->|(d & w & -> & Hd)].
  - exists [], c. auto.
  - exists (c :: rev w), d. simpl. auto.
Qed.

Lemma ends_stripped (s : str) :
  (exists c u, s = c :: u /\ isspace c = false) ->
  (exists u c, s = u ++ [c] /\ isspace c = false) ->
  strip s = s.
Proof.
  intros (c & u & Hs & Hc) (u' & d & Hs' & Hd).
  unfold strip, rstrip.
  assert (Hl : lstrip s = s) by (rewrite Hs; simpl; now rewrite Hc).
  rewrite Hl, Hs', rev_app_distr. simpl. rewrite Hd.
  simpl. now rewrite rev_involutive.
Qed.

Lemma strip_idempotent (s : str) : strip (strip s) = strip s.
Proof.
  destruct (strip_ends s) as [->|[Hhead Hlast]]; [reflexivity|].
  now apply ends_stripped.
Qed.

(** Concatenating non-empty stripped pieces gives a stripped string. *)
Lemma concat_stripped (pieces : list str) :
  Forall (fun p => p <> [] /\ strip p = p) pieces ->
  strip (concat pieces) = concat pieces.
Proof.
  intros H.
  assert (Hends : forall p, p <> [] -> strip p = p ->
            (exists c u, p = c :: u /\ isspace c = false)
            /\ (exists u c, p = u ++ [c] /\ isspace c = false)).
  { intros p Hne Hp. destruct (strip_ends p) as [He|He].
    - congruence.
    - now rewrite Hp in He. }
  destruct pieces as [|p ps]; [reflexivity|].
  apply ends_stripped.
  - inversion H as [|? ? [Hne Hp] _]; subst.
    destruct (Hends p Hne Hp) as [(c & u & -> & Hc) _].
    exists c, (u ++ concat ps). split; [reflexivity | exact Hc].
  - revert p H. induction ps as [|q ps IH]; intros p H.
    + inversion H as [|? ? [Hne Hp] _]; subst.
      destruct (Hends p Hne Hp) as [_ (u & c & -> & Hc)].
      exists u, c. unfold concat. simpl. now rewrite app_nil_r.
    + inversion H as [|? ? _ Hrest]; subst.
      destruct (IH q Hrest) as (u & c & Hu & Hc).
      exists (p ++ u), c. split; [|exact Hc].
      unfold concat in *. simpl in *. rewrite Hu.
      now rewrite app_assoc.
Qed.

Lemma get_text_strip_stripped (n : node) :
  strip (get_text_strip n) = get_text_strip n.
Proof.
  unfold get_text_strip. apply concat_stripped.
  apply Forall_forall. intros p Hin.
  apply filter_In in Hin as [Hin Hne].
  apply in_map_iff in Hin as (x & <- & _).
  split; [|apply strip_idempotent].
  intros Hnil. rewrite Hnil in Hne. discriminate.
Qed.

(** ** More on outcomes *)

Lemma comprehension_first_raise {T U : Type} (f : T -> outcome U)
  (before : list T) (bad : T) (after : list T) (e : exn) :
  Forall (fun a => exists b, f a = Return b) before ->
  f bad = Raise e ->
  comprehension f (before ++ bad :: after) = Raise e.
Proof.
  intros Hbefore Hbad.
  induction Hbefore as [|a before (b & Hb) _ IH]; simpl.
  - now rewrite Hbad.
  - rewrite Hb. simpl. now rewrite IH.
Qed.

Lemma comprehension_Exists_raise {T U : Type} (f : T -> outcome U)
  (l : list T) :
  Exists (fun a => exists e, f a = Raise e) l ->
  exists e, comprehension f l = Raise e.
Proof.
  induction 1 as [a l (e & He)|a l _ (e & IH)]; simpl.
  - rewrite He. simpl. eauto.
  - destruct (f a); simpl; [|eauto]. rewrite IH. simpl. eauto.
Qed.

(** ** More on the cooking stages *)

Lemma stage_well_formed_or_malformed (cfg : Config.t) (item : node) :
  well_formed_stage cfg item \/ malformed_stage cfg item.
Proof.
  unfold well_formed_stage, malformed_stage.
  destruct (find item DIV _) as [label|]; [|right; now left].
  destruct (find item P None) as [par|]; [|right; now right].
  left. eauto.
Qed.

Lemma malformed_stage_raises (cfg : Config.t) (item : node) :
  malformed_stage cfg item -> cooking_stage cfg item = Raise AttributeError.
Proof.
  unfold malformed_stage, cooking_stage. intros [H|H].
  - now rewrite H.
  - destruct (find item DIV _); [simpl; now rewrite H | reflexivity].
Qed.

Lemma stages_well_formed_or_malformed (cfg : Config.t) (l : list node) :
  Forall (well_formed_stage cfg) l \/ Exists (malformed_stage cfg) l.
Proof.
  induction l as [|item l [IH|IH]].
  - left. constructor.
  - destruct (stage_well_formed_or_malformed cfg item) as [H|H].
    + left. now constructor.
    + right. now constructor.
  - right. now constructor 2.
Qed.

(** X3.  [get_cooking_stages] never raises; it returns [None] exactly
    when some stage container of the page lacks its label or its
    paragraph, and otherwise a list with one stage per container. *)
Theorem get_cooking_stages_none_iff (soup : node) (cfg : Config.t) :
  let stage_divs :=
    find_all soup DIV
      (Some (Config.cooking_stages (Config.recipe_page_classes cfg))) in
  (exists stages, get_cooking_stages soup cfg = Return stages)
  /\ (get_cooking_stages soup cfg = Return None
      <-> Exists (malformed_stage cfg) stage_divs)
  /\ (forall stages,
        get_cooking_stages soup cfg = Return (Some stages) ->
        length stages = length stage_divs).
Proof.
  intros stage_divs.
  split; [apply get_cooking_stages_returns|].
  destruct (stages_well_formed_or_malformed cfg stage_divs) as [Hwf|Hbad].
  - destruct (@get_cooking_stages_well_formed soup cfg Hwf)
      as (entries & Hret & Hall).
    split.
    + split; [congruence|].
      intros Hex. exfalso.
      apply Exists_exists in Hex as (item & Hin & Hitem).
      rewrite Forall_forall in Hwf.
      destruct (Hwf item Hin) as (label & par & Hl & Hp).
      destruct Hitem; congruence.
    + intros stages Hst. rewrite Hret in Hst. injection Hst as <-.
      symmetry. eapply Forall2_length; eauto.
  - assert (Hnone : get_cooking_stages soup cfg = Return None).
    { unfold get_cooking_stages. cbv zeta. fold stage_divs.
      destruct (comprehension_Exists_raise (cooking_stage cfg)
                  (l:=stage_divs)) as (e & He).
      { eapply Exists_impl; [|exact Hbad].
        intros item Hitem. exists AttributeError.
        now apply malformed_stage_raises. }
      rewrite He. simpl.
      apply comprehension_Raise in He as (item & _ & Hitem).
      apply cooking_stage_raises in Hitem as ->. reflexivity. }
    split; [tauto|].
    intros stages Hst. congruence.
Qed.

Lemma get_cooking_stages_none_iff_witness :
  get_cooking_stages Fixture.broken_stage_page Fixture.cfg = Return None
  /\ forall stages,
       get_cooking_stages (Fixture.recipe_page PORTION_WORD) Fixture.cfg
       = Return (Some stages) ->
       length stages = 1.
Proof.
  split.
  - apply (proj1 (proj2 (get_cooking_stages_none_iff
                           Fixture.broken_stage_page Fixture.cfg))).
    apply Exists_cons_tl, Exists_cons_hd. right. reflexivity.
  - intros stages Hstages.
    apply (proj2 (proj2 (get_cooking_stages_none_iff
                           (Fixture.recipe_page PORTION_WORD) Fixture.cfg))
             stages Hstages).
Defined.

(** ** More on the category listing *)

Lemma comprehension_Forall {T U : Type} (f : T -> outcome U)
  (Q : U -> Prop) (l : list T) (bs : list U) :
  (forall a b, In a l -> f a = Return b -> Q b) ->
  comprehension f l = Return bs -> Forall Q bs.
Proof.
  intros HQ H. apply comprehension_Return in H.
  induction H as [|a b l bs Hab _ IH]; constructor.
  - apply (HQ a b); [now left | exact Hab].
  - apply IH. intros a' b' Hin. apply HQ. now right.
Qed.

Lemma category_of_anchor_valid (self : Scraper.t) (anchor : node) :
  valid_anchor self anchor ->
  exists entry, category_of_anchor self anchor = Return entry.
Proof.
  intros (label & href & Hl & Hh).
  unfold category_of_anchor, getitem. cbv zeta.
  rewrite Hl, Hh. simpl. eauto.
Qed.

Lemma category_of_anchor_raises (self : Scraper.t) (anchor : node)
  (e : exn) :
  category_of_anchor self anchor = Raise e ->
  e = AttributeError \/ e = KeyError.
Proof.
  unfold category_of_anchor, getitem. cbv zeta.
  destruct (find anchor DIV _); simpl; [|intros H; left; congruence].
  destruct (get_attr anchor HREF); simpl; [discriminate|].
  intros H. right. congruence.
Qed.

Section FetchedListing.

Variables (self : Scraper.t) (s : session) (url : str) (soup : node).
Hypothesis fetched : get_soup s url = Some soup.

Let cc := Config.category_classes (Scraper.config self).

(** X4.  The category list is all or nothing: when the page has no
    categories container, or when the first category anchor that is not
    valid lacks its label element, [get_categories] returns the empty
    list, whatever the other anchors hold. *)
Theorem get_categories_all_or_nothing :
  (find soup DIV (Some (Config.main_category cc)) = None ->
   get_categories self s url = Return [])
  /\ (forall categories_div before bad after,
        find soup DIV (Some (Config.main_category cc))
        = Some categories_div ->
        find_all categories_div A (Some (Config.category_item cc))
        = before ++ bad :: after ->
        Forall (valid_anchor self) before ->
        find bad DIV (Some (Config.category_text cc)) = None ->
        get_categories self s url = Return []).
Proof.
  unfold cc. split.
  - intros Hnone. unfold get_categories. rewrite fetched. cbv zeta.
    rewrite Hnone. reflexivity.
  - intros categories_div before bad after Hdiv Hanchors Hbefore Hbad.
    unfold get_categories. rewrite fetched. cbv zeta.
    rewrite Hdiv. simpl bind. rewrite Hanchors.
    rewrite (@comprehension_first_raise _ _ (category_of_anchor self)
               before bad after AttributeError).
    + reflexivity.
    + eapply Forall_impl; [|exact Hbefore].
      intros a. apply category_of_anchor_valid.
    + unfold category_of_anchor. cbv zeta. rewrite Hbad. reflexivity.
Qed.

(** X5.  When the first category anchor that is not valid has its label
    but no [href], [get_categories] raises [KeyError]. *)
Theorem get_categories_missing_href (categories_div : node)
  (before : list node) (bad : node) (after : list node) (label : node) :
  find soup DIV (Some (Config.main_category cc)) = Some categories_div ->
  find_all categories_div A (Some (Config.category_item cc))
  = before ++ bad :: after ->
  Forall (valid_anchor self) before ->
  find bad DIV (Some (Config.category_text cc)) = Some label ->
  get_attr bad HREF = None ->
  get_categories self s url = Raise KeyError.
Proof.
  unfold cc. intros Hdiv Hanchors Hbefore Hlabel Hhref.
  unfold get_categories. rewrite fetched. cbv zeta.
  rewrite Hdiv. simpl bind. rewrite Hanchors.
  rewrite (@comprehension_first_raise _ _ (category_of_anchor self)
             before bad after KeyError).
  - reflexivity.
  - eapply Forall_impl; [|exact Hbefore].
    intros a. apply category_of_anchor_valid.
  - unfold category_of_anchor, getitem. cbv zeta.
    rewrite Hlabel, Hhref. reflexivity.
Qed.

End FetchedListing.

(** X6.  [KeyError] is the only exception that [get_categories] lets
    through. *)
Theorem get_categories_only_KeyError (self : Scraper.t) (s : session)
  (url : str) (e : exn) :
  get_categories self s url = Raise e -> e = KeyError.
Proof.
  unfold get_categories.
  destruct (get_soup s url) as [soup|]; [|discriminate].
  cbv zeta.
  destruct (find soup DIV _) as [categories_div|]; simpl bind;
    [|discriminate].
  destruct (comprehension _ _) as [entries|e'] eqn:Hc; [discriminate|].
  apply comprehension_Raise in Hc as (a & _ & Ha).
  apply category_of_anchor_raises in Ha as [->| ->]; simpl;
    [discriminate | congruence].
Qed.

(** X7.  Every category that [get_categories] returns has a name without
    white space at its ends and a URL that starts with the base URL. *)
Theorem get_categories_entries_normal (self : Scraper.t) (s : session)
  (url : str) (entries : list Category.t) :
  get_categories self s url = Return entries ->
  Forall (fun c => strip (Category.name c) = Category.name c
                   /\ under_base_url self (Category.url c)) entries.
Proof.
  unfold get_categories.
  destruct (get_soup s url) as [soup|];
    [|intros H; injection H as <-; constructor].
  cbv zeta.
  destruct (find soup DIV _) as [categories_div|]; simpl bind;
    [|intros H; injection H as <-; constructor].
  destruct (comprehension _ _) as [entries'|e] eqn:Hc; simpl.
  - intros H. injection H as <-.
    eapply comprehension_Forall; [|exact Hc].
    intros a c _ Hac. unfold category_of_anchor, getitem in Hac.
    cbv zeta in Hac.
    destruct (find a DIV _) as [label|]; simpl in Hac; [|discriminate].
    destruct (get_attr a HREF) as [href|]; simpl in Hac; [|discriminate].
    injection Hac as <-. simpl. split.
    + apply get_text_strip_stripped.
    + exists href. reflexivity.
  - destruct e; simpl; intros H; try discriminate.
    injection H as <-. constructor.
Qed.

Lemma get_categories_all_or_nothing_witness :
  get_categories Fixture.scraper Variants.site (lit "http://k/bare")
  = Return []
  /\ get_categories Fixture.scraper Variants.site (lit "http://k/unlabeled")
     = Return [].
Proof.
  split.
  - apply (proj1 (@get_categories_all_or_nothing Fixture.scraper
                    Variants.site (lit "http://k/bare")
                    (Fixture.document []) eq_refl)).
    reflexivity.
  - apply (proj2 (@get_categories_all_or_nothing Fixture.scraper
                    Variants.site (lit "http://k/unlabeled")
                    Variants.unlabeled_index eq_refl)
             (Fixture.div "cats"
                [Fixture.category_anchor "/salads" "Salads";
                 Variants.unlabeled_anchor;
                 Fixture.category_anchor "/soups" "Soups"])
             [Fixture.category_anchor "/salads" "Salads"]
             Variants.unlabeled_anchor
             [Fixture.category_anchor "/soups" "Soups"]).
    + reflexivity.
    + reflexivity.
    + repeat constructor.
      exists (Fixture.div "cat-text" [Fixture.txt "Salads"]),
             (lit "/salads").
      split; reflexivity.
    + reflexivity.
Defined.

Lemma get_categories_missing_href_witness :
  get_categories Fixture.scraper Variants.site (lit "http://k/hrefless")
  = Raise KeyError.
Proof.
  apply (@get_categories_missing_href Fixture.scraper Variants.site
           (lit "http://k/hrefless") Variants.hrefless_index eq_refl
           (Fixture.div "cats"
              [Fixture.category_anchor "/salads" "Salads";
               Variants.hrefless_anchor;
               Fixture.category_anchor "/soups" "Soups"])
           [Fixture.category_anchor "/salads" "Salads"]
           Variants.hrefless_anchor
           [Fixture.category_anchor "/soups" "Soups"]
           (Fixture.div "cat-text" [Fixture.txt "Stews"])).
  - reflexivity.
  - reflexivity.
  - repeat constructor.
    exists (Fixture.div "cat-text" [Fixture.txt "Salads"]),
           (lit "/salads").
    split; reflexivity.
  - reflexivity.
  - reflexivity.
Defined.

Lemma get_categories_only_KeyError_witness :
  get_categories Fixture.scraper Variants.site (lit "http://k/hrefless")
  = Raise KeyError
  /\ KeyError = KeyError.
Proof.
  split; [reflexivity|].
  apply (@get_categories_only_KeyError Fixture.scraper Variants.site
           (lit "http://k/hrefless") KeyError).
  reflexivity.
Defined.

Lemma get_categories_entries_normal_witness :
  Forall (fun c => strip (Category.name c) = Category.name c
                   /\ under_base_url Fixture.scraper (Category.url c))
    [{| Category.name := lit "Salads";
        Category.url := lit "http://k/salads" |};
     {| Category.name := lit "Soups";
        Category.url := lit "http://k/soups" |}].
Proof.
  apply (@get_categories_entries_normal Fixture.scraper Fixture.site
           (lit "http://k/cat")).
  reflexivity.
Defined.

(** ** More on the recipe links of a category *)

Lemma bind_Return {T U : Type} (a : T) (k : T -> outcome U) :
  bind (Return a) k = k a.
Proof. reflexivity. Qed.

Lemma link_url_href (self : Scraper.t) (link : node) :
  link_url self link
  = match get_attr link HREF with
    | Some href => Return (Scraper.base_url self ++ href)
    | None => Raise KeyError
    end.
Proof.
  unfold link_url, getitem. destruct (get_attr link HREF); reflexivity.
Qed.

(** Names the element expression of the comprehension in the goal. *)
Ltac name_link_url self :=
  match goal with
  | |- context [@comprehension ?T ?U ?f ?l] =>
      change (@comprehension T U f l) with (comprehension (link_url self) l)
  end.

Section FetchedCategory.

Variables (self : Scraper.t) (s : session) (category : Category.t).
Variables (soup container : node).
Hypothesis fetched : get_soup s (Category.url category) = Some soup.

Let rc := Config.recipes_classes (Scraper.config self).

Hypothesis container_found :
  find soup DIV (Some (Config.recipes_container rc)) = Some container.

Let recipe_links := find_all container A (Some (Config.recipe_link rc)).

(** X8.  When the listing page is fetched, holds the recipes container
    and every recipe link has an [href], [_extract_recipe_urls] returns
    exactly one sub-category, with the category's name and URL and, in
    document order, the base URL followed by each link's [href]; this
    also holds for a container without links, which gives a sub-category
    with no recipe URL. *)
Theorem extract_recipe_urls_success :
  Forall (fun link => get_attr link HREF <> None) recipe_links ->
  exists urls,
    _extract_recipe_urls self s category
    = Return [ {| SubCategory.sub_category_name := Category.name category;
                  SubCategory.sub_category_url := Category.url category;
                  SubCategory.recipe_urls := urls |} ]
    /\ Forall2 (recipe_url_of self) recipe_links urls.
Proof.
  intros Hhref. unfold recipe_links, rc in *.
  unfold _extract_recipe_urls.
  rewrite fetched. cbv zeta. rewrite container_found.
  unfold member. rewrite bind_Return.
  set (links := find_all container A _) in *.
  destruct (comprehension_total (link_url self) links) as (urls & Hurls).
  { intros link Hin. rewrite link_url_href.
    rewrite Forall_forall in Hhref. specialize (Hhref link Hin).
    destruct (get_attr link HREF); [eauto | contradiction]. }
  exists urls.
  name_link_url self.
  rewrite Hurls.
  split; [reflexivity|].
  apply comprehension_Return in Hurls.
  eapply Forall2_impl; [|exact Hurls].
  intros link u Hu. cbv beta in Hu. rewrite link_url_href in Hu.
  destruct (get_attr link HREF) as [href|] eqn:Hh; [|discriminate].
  injection Hu as <-. exists href. auto.
Qed.

(** X9.  When some recipe link of the container has no [href],
    [_extract_recipe_urls] raises [KeyError]. *)
Theorem extract_recipe_urls_missing_href :
  Exists (fun link => get_attr link HREF = None) recipe_links ->
  _extract_recipe_urls self s category = Raise KeyError.
Proof.
  intros Hbad. unfold recipe_links, rc in *.
  unfold _extract_recipe_urls.
  rewrite fetched. cbv zeta. rewrite container_found.
  unfold member. rewrite bind_Return.
  set (links := find_all container A _) in *.
  destruct (comprehension_Exists_raise (link_url self) (l:=links))
    as (e & He).
  { eapply Exists_impl; [|exact Hbad].
    intros link Hlink. exists KeyError.
    rewrite link_url_href, Hlink. reflexivity. }
  name_link_url self.
  rewrite He.
  apply comprehension_Raise in He as (link & _ & Hlink).
  rewrite link_url_href in Hlink.
  destruct (get_attr link HREF); [discriminate|].
  injection Hlink as <-. reflexivity.
Qed.

End FetchedCategory.

(** X10.  Whatever the page, a result of [_extract_recipe_urls] is empty
    or is a single sub-category that carries the category's name and URL
    and whose recipe URLs all start with the base URL; and [KeyError] is
    the only exception it lets through. *)
Theorem extract_recipe_urls_shape (self : Scraper.t) (s : session)
  (category : Category.t) :
  (forall subs,
     _extract_recipe_urls self s category = Return subs ->
     subs = []
     \/ exists urls,
          subs = [ {| SubCategory.sub_category_name :=
                        Category.name category;
                      SubCategory.sub_category_url :=
                        Category.url category;
                      SubCategory.recipe_urls := urls |} ]
          /\ Forall (under_base_url self) urls)
  /\ (forall e,
        _extract_recipe_urls self s category = Raise e -> e = KeyError).
Proof.
  unfold _extract_recipe_urls.
  destruct (get_soup s (Category.url category)) as [soup|];
    [|split; [intros subs H; left; congruence | discriminate]].
  cbv zeta.
  destruct (find soup DIV _) as [container|];
    [|split; [intros subs H; left; simpl in H; congruence
             | simpl; discriminate]].
  unfold member. rewrite bind_Return.
  name_link_url self.
  destruct (comprehension _ _) as [urls|e'] eqn:Hc; simpl.
  - split; [|discriminate].
    intros subs H. injection H as <-. right.
    exists urls. split; [reflexivity|].
    eapply comprehension_Forall; [|exact Hc].
    intros link u _ Hu. rewrite link_url_href in Hu.
    destruct (get_attr link HREF) as [href|]; [|discriminate].
    injection Hu as <-. exists href. reflexivity.
  - apply comprehension_Raise in Hc as (link & _ & Hlink).
    rewrite link_url_href in Hlink.
    destruct (get_attr link HREF); [discriminate|].
    injection Hlink as <-. simpl.
    split; [discriminate | congruence].
Qed.

Lemma extract_recipe_urls_success_witness :
  exists urls,
    _extract_recipe_urls Fixture.scraper Fixture.site Fixture.hot
    = Return [ {| SubCategory.sub_category_name := lit "Hot";
                  SubCategory.sub_category_url := lit "http://k/soups/hot";
                  SubCategory.recipe_urls := urls |} ]
    /\ Forall2 (recipe_url_of Fixture.scraper)
         [Fixture.link "recipe" "/r1" []; Fixture.link "recipe" "/r2" [];
          Fixture.link "recipe" "/r3" []]
         urls.
Proof.
  apply (@extract_recipe_urls_success Fixture.scraper Fixture.site
           Fixture.hot
           (Fixture.listing_page ["/r1"; "/r2"; "/r3"]%string)
           (Fixture.div "recipes"
              [Fixture.link "recipe" "/r1" []; Fixture.link "recipe" "/r2" [];
               Fixture.link "recipe" "/r3" []])
           eq_refl eq_refl).
  repeat constructor; discriminate.
Defined.

Lemma extract_recipe_urls_missing_href_witness :
  _extract_recipe_urls Fixture.scraper Variants.site Fixture.hot
  = Raise KeyError.
Proof.
  apply (@extract_recipe_urls_missing_href Fixture.scraper Variants.site
           Fixture.hot Variants.hrefless_listing
           (Fixture.div "recipes"
              [Fixture.link "recipe" "/r1" []; Variants.hrefless_link])
           eq_refl eq_refl).
  apply Exists_cons_tl, Exists_cons_hd. reflexivity.
Defined.

Lemma extract_recipe_urls_shape_witness :
  Forall (under_base_url Fixture.scraper)
    [lit "http://k/r1"; lit "http://k/r2"; lit "http://k/r3"].
Proof.
  destruct (proj1 (extract_recipe_urls_shape Fixture.scraper Fixture.site
                     Fixture.hot)
              [Fixture.hot_recipes] eq_refl)
    as [Hnil|(urls & Hsubs & Hurls)].
  - discriminate Hnil.
  - injection Hsubs as <-. exact Hurls.
Defined.

(** ** More on the fan-out over the categories *)

(** X11.  [get_all_recipes_urls] never raises.  When the extraction of
    every category returns, its result lists these results in the order
    of the categories; when the extraction of some category raises, the
    result is the empty list, so the recipe URLs of every category are
    lost. *)
Theorem get_all_recipes_urls_all_or_nothing (self : Scraper.t)
  (s : session) (categories : list Category.t) :
  (exists recipes,
     get_all_recipes_urls self s categories = Return recipes)
  /\ (Forall (fun c => exists subs,
                _extract_recipe_urls self s c = Return subs) categories ->
      exists recipes,
        get_all_recipes_urls self s categories = Return recipes
        /\ Forall2 (fun c subs =>
                      _extract_recipe_urls self s c = Return subs)
             categories recipes)
  /\ (Exists (fun c => exists e,
                _extract_recipe_urls self s c = Raise e) categories ->
      get_all_recipes_urls self s categories = Return []).
Proof.
  unfold get_all_recipes_urls, gather.
  assert (Hmap : forall l,
            comprehension (fun t => t)
              (map (_extract_recipe_urls self s) l)
            = comprehension (_extract_recipe_urls self s) l).
  { induction l as [|c l IH]; simpl; [reflexivity|]. now rewrite IH. }
  rewrite Hmap. split; [|split].
  - destruct (comprehension _ categories); simpl; eauto.
  - intros Hall.
    destruct (comprehension_total (_extract_recipe_urls self s)
                categories) as (recipes & Hrecipes).
    { intros c Hin. rewrite Forall_forall in Hall. now apply Hall. }
    exists recipes. rewrite Hrecipes. split; [reflexivity|].
    now apply comprehension_Return.
  - intros Hbad.
    destruct (comprehension_Exists_raise (_extract_recipe_urls self s)
                Hbad) as (e & He).
    rewrite He. reflexivity.
Qed.

Lemma get_all_recipes_urls_all_or_nothing_witness :
  get_all_recipes_urls Fixture.scraper Variants.site
    [Fixture.cold; Fixture.hot] = Return []
  /\ exists recipes,
       get_all_recipes_urls Fixture.scraper Fixture.site
         [Fixture.cold; Fixture.hot] = Return recipes
       /\ Forall2 (fun c subs =>
                     _extract_recipe_urls Fixture.scraper Fixture.site c
                     = Return subs)
            [Fixture.cold; Fixture.hot] recipes.
Proof.
  split.
  - apply (proj2 (proj2 (get_all_recipes_urls_all_or_nothing
                           Fixture.scraper Variants.site
                           [Fixture.cold; Fixture.hot]))).
    apply Exists_cons_tl, Exists_cons_hd.
    exists KeyError. reflexivity.
  - apply (proj1 (proj2 (get_all_recipes_urls_all_or_nothing
                           Fixture.scraper Fixture.site
                           [Fixture.cold; Fixture.hot]))).
    repeat constructor; eexists; vm_compute; reflexivity.
Defined.

(** ** More on recipe extraction *)

Lemma extract_recipe_details_fetched (self : Scraper.t) (s : session)
  (recipe_url sub_category_name sub_category_url : str) (r : Recipe.t) :
  extract_recipe_details self s recipe_url
    sub_category_name sub_category_url = Return (Some r) ->
  exists soup, get_soup s recipe_url = Some soup.
Proof.
  unfold extract_recipe_details.
  destruct (get_soup s recipe_url) as [soup|]; [eauto | discriminate].
Qed.

Lemma get_cooking_stages_entries (soup : node) (cfg : Config.t)
  (stages : list Stage.t) :
  get_cooking_stages soup cfg = Return (Some stages) ->
  Forall2 (stage_entry cfg)
    (find_all soup DIV
       (Some (Config.cooking_stages (Config.recipe_page_classes cfg))))
    stages.
Proof.
  unfold get_cooking_stages. cbv zeta.
  destruct (comprehension _ _) as [stages'|e] eqn:Hc; simpl;
    [|destruct e; discriminate].
  intros H. injection H as <-.
  apply comprehension_Return in Hc.
  eapply Forall2_impl; [|exact Hc].
  intros item st Hst. cbv beta in Hst. unfold cooking_stage in Hst.
  destruct (find item DIV _) as [label|] eqn:Hl; simpl in Hst;
    [|discriminate].
  destruct (find item P None) as [par|] eqn:Hp; simpl in Hst;
    [|discriminate].
  injection Hst as <-. exists label, par. auto.
Qed.

(** X12.  A returned record refers back to its origin: it carries the
    recipe URL and the sub-category name and URL that were passed in, and
    the main category name and URL of the scraper. *)
Theorem extract_recipe_details_back_references (self : Scraper.t)
  (s : session) (recipe_url sub_category_name sub_category_url : str)
  (r : Recipe.t) :
  extract_recipe_details self s recipe_url
    sub_category_name sub_category_url = Return (Some r) ->
  Recipe.url r = recipe_url
  /\ Recipe.sub_category_name r = sub_category_name
  /\ Recipe.sub_category_url r = sub_category_url
  /\ Recipe.main_category_name r = Scraper.main_category_name self
  /\ Recipe.main_category_url r = Scraper.main_category_url self.
Proof.
  intros Hr.
  destruct (@extract_recipe_details_fetched self s recipe_url
              sub_category_name sub_category_url r Hr) as (soup & Hsoup).
  destruct (@extract_recipe_details_inv self s recipe_url sub_category_name
              sub_category_url soup Hsoup r Hr)
    as (req & stages & _ & ->).
  repeat split; reflexivity.
Qed.

(** X13.  Every text of a returned record is cleaned: the name, the
    description, the author, each ingredient and the label and text of
    each cooking stage contain no white space other than single ordinary
    spaces between two other characters. *)
Theorem extract_recipe_details_texts_tidy (self : Scraper.t)
  (s : session) (recipe_url sub_category_name sub_category_url : str)
  (r : Recipe.t) :
  extract_recipe_details self s recipe_url
    sub_category_name sub_category_url = Return (Some r) ->
  tidy (Recipe.recipe_name r)
  /\ tidy (Recipe.description r)
  /\ tidy (Recipe.author_name r)
  /\ Forall tidy (Recipe.ingredients r)
  /\ (forall stages,
        Recipe.cooking_stages r = Some stages ->
        Forall (fun st => tidy (Stage.stage st) /\ tidy (Stage.text st))
          stages).
Proof.
  intros Hr.
  destruct (@extract_recipe_details_fetched self s recipe_url
              sub_category_name sub_category_url r Hr) as (soup & Hsoup).
  destruct (@extract_recipe_details_inv self s recipe_url sub_category_name
              sub_category_url soup Hsoup r Hr)
    as (req & stages & Hstages & ->).
  unfold record_of. simpl.
  split; [apply clean_text_tidy|].
  split; [apply clean_text_tidy|].
  split; [apply clean_text_tidy|].
  split.
  - apply Forall_forall. intros x Hin.
    apply in_map_iff in Hin as (d & <- & _). apply clean_text_tidy.
  - intros stages' ->.
    apply get_cooking_stages_entries in Hstages. clear Hr.
    induction Hstages as [|item st l l' (label & par & _ & _ & Hs & Ht) _ IH];
      [constructor|].
    constructor; [|exact IH].
    rewrite Hs, Ht. split; apply clean_text_tidy.
Qed.

(** X14.  The lists of a returned record follow the page: the
    ingredients are the cleaned texts of the ingredient elements, one per
    element in document order, and the cooking stages, when present, are
    built from the stage containers, one per container in document
    order. *)
Theorem extract_recipe_details_document_order (self : Scraper.t)
  (s : session) (recipe_url sub_category_name sub_category_url : str)
  (soup : node) (r : Recipe.t) :
  get_soup s recipe_url = Some soup ->
  extract_recipe_details self s recipe_url
    sub_category_name sub_category_url = Return (Some r) ->
  let pc := Config.recipe_page_classes (Scraper.config self) in
  Recipe.ingredients r
  = map (fun div => clean_text (get_text div))
      (find_all soup DIV (Some (Config.ingredients pc)))
  /\ (forall stages,
        Recipe.cooking_stages r = Some stages ->
        Forall2 (stage_entry (Scraper.config self))
          (find_all soup DIV (Some (Config.cooking_stages pc))) stages).
Proof.
  intros Hsoup Hr pc.
  destruct (@extract_recipe_details_inv self s recipe_url sub_category_name
              sub_category_url soup Hsoup r Hr)
    as (req & stages & Hstages & ->).
  split; [reflexivity|].
  intros stages' Heq. simpl in Heq. subst stages.
  now apply get_cooking_stages_entries.
Qed.

(** X15.  The portion of a returned record has no white space at its
    ends and is never the bare word for "portion". *)
Theorem extract_recipe_details_portion_normal (self : Scraper.t)
  (s : session) (recipe_url sub_category_name sub_category_url : str)
  (r : Recipe.t) :
  extract_recipe_details self s recipe_url
    sub_category_name sub_category_url = Return (Some r) ->
  strip (Recipe.portion r) = Recipe.portion r
  /\ Recipe.portion r <> PORTION_WORD.
Proof.
  intros Hr.
  destruct (@extract_recipe_details_fetched self s recipe_url
              sub_category_name sub_category_url r Hr) as (soup & Hsoup).
  destruct (@extract_recipe_details_inv self s recipe_url sub_category_name
              sub_category_url soup Hsoup r Hr)
    as (req & stages & _ & ->).
  unfold record_of. simpl Recipe.portion. unfold normalize_portion.
  destruct (str_eqb _ PORTION_WORD) eqn:Heq.
  - split; [reflexivity | discriminate].
  - split; [apply strip_idempotent | now apply str_eqb_neq].
Qed.

Lemma extract_recipe_details_back_references_witness :
  exists r,
    Fixture.details "/r3" = Return (Some r)
    /\ Recipe.url r = lit "http://k/r3"
    /\ Recipe.sub_category_name r = lit "Hot"
    /\ Recipe.sub_category_url r = lit "http://k/soups/hot"
    /\ Recipe.main_category_name r = lit "Soups"
    /\ Recipe.main_category_url r = Some (lit "http://k/soups").
Proof.
  eexists. split; [vm_compute; reflexivity|].
  refine (@extract_recipe_details_back_references Fixture.scraper
            Fixture.site (lit "http://k/r3") (lit "Hot")
            (lit "http://k/soups/hot") _ _).
  vm_compute. reflexivity.
Defined.

Lemma extract_recipe_details_texts_tidy_witness :
  exists r,
    Fixture.details "/r1" = Return (Some r)
    /\ tidy (Recipe.recipe_name r)
    /\ tidy (Recipe.description r)
    /\ tidy (Recipe.author_name r)
    /\ Forall tidy (Recipe.ingredients r)
    /\ (forall stages,
          Recipe.cooking_stages r = Some stages ->
          Forall (fun st => tidy (Stage.stage st) /\ tidy (Stage.text st))
            stages).
Proof.
  eexists. split; [vm_compute; reflexivity|].
  refine (@extract_recipe_details_texts_tidy Fixture.scraper
            Fixture.site (lit "http://k/r1") (lit "Hot")
            (lit "http://k/soups/hot") _ _).
  vm_compute. reflexivity.
Defined.

Lemma extract_recipe_details_document_order_witness :
  exists r,
    Fixture.details "/r1" = Return (Some r)
    /\ Recipe.ingredients r = [lit "beet"]
    /\ (forall stages,
          Recipe.cooking_stages r = Some stages ->
          Forall2 (stage_entry Fixture.cfg) [Fixture.stage_part] stages).
Proof.
  eexists. split; [vm_compute; reflexivity|].
  refine (@extract_recipe_details_document_order Fixture.scraper
            Fixture.site (lit "http://k/r1") (lit "Hot")
            (lit "http://k/soups/hot")
            (Fixture.recipe_page PORTION_WORD) _ eq_refl _).
  vm_compute. reflexivity.
Defined.

Lemma extract_recipe_details_portion_normal_witness :
  exists r,
    Fixture.details "/r1" = Return (Some r)
    /\ strip (Recipe.portion r) = Recipe.portion r
    /\ Recipe.portion r <> PORTION_WORD.
Proof.
  eexists. split; [vm_compute; reflexivity|].
  refine (@extract_recipe_details_portion_normal Fixture.scraper
            Fixture.site (lit "http://k/r1") (lit "Hot")
            (lit "http://k/soups/hot") _ _).
  vm_compute. reflexivity.
Defined.

(** Settles one equivalence between an outcome and the lookups that lead
    to it, once every lookup has been decided. *)
Ltac settle_case :=
  split;
  [ intros Hcase; first [discriminate Hcase | repeat eexists; eauto]
  | intros Hcase;
    first [reflexivity | exfalso; decompose [ex and] Hcase; congruence] ].

(** Settles the three equivalences and the final inequality on a page
    whose outcome is decided before the portion is read. *)
Ltac settle_leaf :=
  simpl; intros ->;
  split; [settle_case|]; split; [settle_case|]; split; [settle_case|];
  discriminate.

Section RaisingPage.

Variables (self : Scraper.t) (s : session).
Variables (recipe_url sub_category_name sub_category_url : str).
Variable soup : node.
Hypothesis fetched : get_soup s recipe_url = Some soup.

Let pc := Config.recipe_page_classes (Scraper.config self).
Let details :=
  extract_recipe_details self s recipe_url
    sub_category_name sub_category_url.

(** X16.  On a fetched page [extract_recipe_details] raises in exactly
    three situations, each with the title and the image container found:
    [TypeError] when the image container holds no [img]; [KeyError] when
    the [img] has no [src]; [IndexError] when image, description and
    author are complete and fewer than two elements match the portion
    selector.  It never raises [AttributeError]. *)
Theorem extract_recipe_details_raise_cases :
  (details = Raise TypeError
   <-> exists title_div image_div,
         find soup DIV (Some (Config.recipe_title pc)) = Some title_div
         /\ find soup DIV (Some (Config.main_image pc)) = Some image_div
         /\ find image_div IMG None = None)
  /\ (details = Raise KeyError
      <-> exists title_div image_div img,
            find soup DIV (Some (Config.recipe_title pc)) = Some title_div
            /\ find soup DIV (Some (Config.main_image pc)) = Some image_div
            /\ find image_div IMG None = Some img
            /\ get_attr img SRC = None)
  /\ (details = Raise IndexError
      <-> exists title_div image_div img src description_div author_div
                 author_tag,
            find soup DIV (Some (Config.recipe_title pc)) = Some title_div
            /\ find soup DIV (Some (Config.main_image pc)) = Some image_div
            /\ find image_div IMG None = Some img
            /\ get_attr img SRC = Some src
            /\ find soup DIV (Some (Config.description pc))
               = Some description_div
            /\ find soup DIV (Some (Config.author pc)) = Some author_div
            /\ find author_div (Config.author_name pc) None
               = Some author_tag
            /\ length (find_all soup DIV (Some (Config.portion pc))) < 2)
  /\ details <> Raise AttributeError.
Proof.
  assert (Hshort : forall l : list node,
            nth_error l 1 = None <-> length l < 2).
  { intros l. rewrite nth_error_None. lia. }
  unfold pc. remember details as out eqn:Hout.
  unfold details, extract_recipe_details in Hout.
  rewrite fetched in Hout. cbv zeta in Hout. revert Hout.
  destruct (find soup DIV (Some (Config.recipe_title _)))
    as [t|] eqn:Ht;
    [unfold member at 1; rewrite bind_Return | settle_leaf].
  destruct (find soup DIV (Some (Config.main_image _)))
    as [im|] eqn:Him;
    [unfold member at 1; rewrite bind_Return | settle_leaf].
  unfold getitem at 1.
  destruct (find im IMG None) as [g|] eqn:Hg; [|settle_leaf].
  destruct (get_attr g SRC) as [sr|] eqn:Hsr;
    [rewrite bind_Return | settle_leaf].
  destruct (find soup DIV (Some (Config.description _)))
    as [d|] eqn:Hd;
    [unfold member at 1; rewrite bind_Return | settle_leaf].
  destruct (find soup DIV (Some (Config.author _)))
    as [a|] eqn:Ha;
    [unfold member at 1; rewrite bind_Return | settle_leaf].
  destruct (find a _ None) as [an|] eqn:Han;
    [unfold member at 1; rewrite bind_Return | settle_leaf].
  destruct (get_cooking_stages_returns soup (Scraper.config self))
    as (stages & Hstages).
  rewrite Hstages, bind_Return. unfold index.
  destruct (nth_error _ 1) as [p|] eqn:Hp; simpl; intros ->.
  - assert (Hlong : ~ length (find_all soup DIV
                               (Some (Config.portion
                                        (Config.recipe_page_classes
                                           (Scraper.config self))))) < 2).
    { intros Hl. apply Hshort in Hl. congruence. }
    split; [settle_case|]. split; [settle_case|].
    split; [|discriminate].
    split; [discriminate|].
    intros (? & ? & ? & ? & ? & ? & ? & Hcase).
    decompose [and] Hcase. contradiction.
  - apply Hshort in Hp.
    split; [settle_case|]. split; [settle_case|].
    split; [|discriminate].
    split; [|reflexivity].
    intros _. exists t, im, g, sr, d, a, an.
    repeat split; try reflexivity; assumption.
Qed.

End RaisingPage.

Lemma extract_recipe_details_raise_cases_witness :
  Fixture.details "/r6" = Raise TypeError
  /\ Fixture.details "/r7" = Raise KeyError
  /\ Fixture.details "/r5" = Raise IndexError
  /\ Fixture.details "/r1" <> Raise AttributeError.
Proof.
  split; [|split; [|split]].
  - apply (proj1 (@extract_recipe_details_raise_cases Fixture.scraper
                    Fixture.site (lit "http://k/r6") (lit "Hot")
                    (lit "http://k/soups/hot") Fixture.no_img_page
                    eq_refl)).
    exists Fixture.title_part, (Fixture.div "image" []).
    repeat split; reflexivity.
  - apply (proj1 (proj2 (@extract_recipe_details_raise_cases
                           Fixture.scraper Fixture.site
                           (lit "http://k/r7") (lit "Hot")
                           (lit "http://k/soups/hot") Fixture.no_src_page
                           eq_refl))).
    exists Fixture.title_part,
      (Fixture.div "image" [Tag IMG [] [] []]), (Tag IMG [] [] []).
    repeat split; reflexivity.
  - apply (proj1 (proj2 (proj2 (@extract_recipe_details_raise_cases
                                  Fixture.scraper Fixture.site
                                  (lit "http://k/r5") (lit "Hot")
                                  (lit "http://k/soups/hot")
                                  Fixture.one_portion_page eq_refl)))).
    exists Fixture.title_part, Fixture.image_part,
      (Tag IMG [] [(SRC, lit "/red.png")] []), (lit "/red.png"),
      Fixture.description_part, Fixture.author_part,
      (Tag (lit "span") [] [] [Fixture.txt "Nino"]).
    repeat split; try reflexivity. vm_compute. lia.
  - apply (proj2 (proj2 (proj2 (@extract_recipe_details_raise_cases
                                  Fixture.scraper Fixture.site
                                  (lit "http://k/r1") (lit "Hot")
                                  (lit "http://k/soups/hot")
                                  (Fixture.recipe_page PORTION_WORD)
                                  eq_refl)))).
Defined.

(** ** More on the crawl *)

Lemma get_one_category_url_loop_none (target : str)
  (categories : list Category.t) :
  (forall c, In c categories -> Category.name c <> target) ->
  get_one_category_url_loop target categories = None.
Proof.
  induction categories as [|c cs IH]; intros H; [reflexivity|].
  simpl. assert (Hc : str_eqb (Category.name c) target = false)
    by (apply str_eqb_neq, H; now left).
  rewrite Hc. apply IH. intros c' Hin. apply H. now right.
Qed.

(** X17.  The crawl stops before any page below the index is fetched,
    and hands over nothing, when the index page cannot be fetched and
    when the index page lists no category with the configured name. *)
Theorem main_aborts_without_category (cfg : Config.t) (s : session) :
  let index_url := Config.base_url cfg ++ Config.categories_url cfg in
  (get_soup s index_url = None -> main cfg s = Return None)
  /\ (forall categories,
        get_categories (init cfg) s index_url = Return categories ->
        (forall c, In c categories ->
           Category.name c <> Config.main_category_name cfg) ->
        main cfg s = Return None).
Proof.
  intros index_url.
  assert (Hstop : forall categories,
            get_categories (init cfg) s index_url = Return categories ->
            (forall c, In c categories ->
               Category.name c <> Config.main_category_name cfg) ->
            main cfg s = Return None).
  { intros categories Hcats Hnone.
    unfold main, initialize_main_category. cbv zeta.
    change (Scraper.base_url (init cfg)
            ++ Config.categories_url (Scraper.config (init cfg)))
      with index_url.
    rewrite Hcats, bind_Return, bind_Return.
    unfold get_one_category_url. simpl Scraper.main_category_url.
    simpl Scraper.main_category_name.
    now rewrite (@get_one_category_url_loop_none
                   (Config.main_category_name cfg) categories Hnone). }
  split; [|exact Hstop].
  intros Hfetch. apply (Hstop []).
  - unfold get_categories. now rewrite Hfetch.
  - intros c [].
Qed.

Lemma main_aborts_without_category_witness :
  main Fixture.cfg Variants.site = Return None
  /\ main Variants.cfg_stews Fixture.site = Return None.
Proof.
  split.
  - apply (proj1 (main_aborts_without_category Fixture.cfg Variants.site)).
    reflexivity.
  - apply (proj2 (main_aborts_without_category Variants.cfg_stews
                    Fixture.site)
             [{| Category.name := lit "Salads";
                 Category.url := lit "http://k/salads" |};
              {| Category.name := lit "Soups";
                 Category.url := lit "http://k/soups" |}]).
    + reflexivity.
    + intros c [<-|[<-|[]]]; discriminate.
Defined.

Lemma Forall2_In_r {T U : Type} (R : T -> U -> Prop)
  (l : list T) (l' : list U) (b : U) :
  Forall2 R l l' -> In b l' -> exists a, In a l /\ R a b.
Proof.
  induction 1 as [|x y l l' Hxy _ IH]; intros Hin; [destruct Hin|].
  destruct Hin as [<-|Hin].
  - exists x. split; [now left | exact Hxy].
  - destruct (IH Hin) as (a & Ha & Hab). exists a. split; [now right|auto].
Qed.

(** What the stages of [main] returned when it hands over results. *)
Lemma main_stages (cfg : Config.t) (s : session)
  (results : list (option Recipe.t)) :
  main cfg s = Return (Some results) ->
  exists scraper main_category_url sub_categories recipes,
    initialize_main_category (init cfg) s = Return scraper
    /\ Scraper.main_category_url scraper = Some main_category_url
    /\ main_category_url <> []
    /\ get_categories scraper s main_category_url = Return sub_categories
    /\ get_all_recipes_urls scraper s sub_categories = Return recipes
    /\ scrape_recipe scraper s (List.concat recipes) = Return results.
Proof.
  unfold main. cbv zeta.
  destruct (initialize_main_category (init cfg) s) as [scraper|e]
    eqn:Hinit;
    [rewrite bind_Return | simpl; discriminate].
  destruct (Scraper.main_category_url scraper) as [u|] eqn:Hu;
    [|discriminate].
  destruct u as [|c u]; [discriminate|]. simpl truthy. cbv iota.
  destruct (get_categories scraper s (c :: u)) as [subs|e] eqn:Hsubs;
    [rewrite bind_Return | simpl; discriminate].
  destruct (get_all_recipes_urls scraper s subs) as [recipes|e]
    eqn:Hrecipes;
    [rewrite bind_Return | simpl; discriminate].
  destruct (scrape_recipe scraper s (List.concat recipes)) as [rs|e]
    eqn:Hrs;
    [rewrite bind_Return | simpl; discriminate].
  intros H. injection H as <-.
  exists scraper, (c :: u), subs, recipes.
  repeat split; try assumption; try reflexivity. discriminate.
Qed.

Lemma initialize_main_category_attributes (cfg : Config.t) (s : session)
  (scraper : Scraper.t) :
  initialize_main_category (init cfg) s = Return scraper ->
  Scraper.config scraper = cfg
  /\ Scraper.base_url scraper = Config.base_url cfg
  /\ Scraper.main_category_name scraper = Config.main_category_name cfg.
Proof.
  unfold initialize_main_category.
  destruct (get_categories _ _ _); [rewrite bind_Return | simpl; discriminate].
  intros H. injection H as <-. repeat split; reflexivity.
Qed.

(** A sub-category found by [_extract_recipe_urls] carries the name and
    the URL of its category, and its recipe URLs start with the base
    URL. *)
Lemma extract_recipe_urls_members (self : Scraper.t) (s : session)
  (category : Category.t) (subs : list SubCategory.t) :
  _extract_recipe_urls self s category = Return subs ->
  forall sub, In sub subs ->
    SubCategory.sub_category_name sub = Category.name category
    /\ SubCategory.sub_category_url sub = Category.url category
    /\ Forall (under_base_url self) (SubCategory.recipe_urls sub).
Proof.
  unfold _extract_recipe_urls.
  destruct (get_soup s (Category.url category)) as [soup|];
    [|intros H; injection H as <-; intros sub []].
  cbv zeta.
  destruct (find soup DIV _) as [container|];
    [|simpl; intros H; injection H as <-; intros sub []].
  unfold member. rewrite bind_Return. name_link_url self.
  destruct (comprehension _ _) as [urls|e] eqn:Hc; simpl.
  - intros H. injection H as <-. intros sub [<-|[]]. simpl.
    repeat split.
    eapply comprehension_Forall; [|exact Hc].
    intros link u _ Hu. rewrite link_url_href in Hu.
    destruct (get_attr link HREF) as [href|]; [|discriminate].
    injection Hu as <-. exists href. reflexivity.
  - destruct e; simpl; try discriminate.
    intros H. injection H as <-. intros sub [].
Qed.

Lemma get_all_recipes_urls_members (self : Scraper.t) (s : session)
  (categories : list Category.t) (recipes : list (list SubCategory.t)) :
  get_all_recipes_urls self s categories = Return recipes ->
  forall sub, In sub (List.concat recipes) ->
    exists c,
      In c categories
      /\ SubCategory.sub_category_name sub = Category.name c
      /\ SubCategory.sub_category_url sub = Category.url c
      /\ Forall (under_base_url self) (SubCategory.recipe_urls sub).
Proof.
  unfold get_all_recipes_urls, gather.
  destruct (comprehension _ _) as [recipes'|e] eqn:Hc; simpl.
  - intros H. injection H as <-. intros sub Hin.
    apply in_concat in Hin as (subs & Hsubs & Hin).
    apply comprehension_Return in Hc.
    destruct (@Forall2_In_r _ _ _ _ _ _ Hc Hsubs) as (t & Ht & Htask).
    apply in_map_iff in Ht as (c & <- & Hcin).
    destruct (@extract_recipe_urls_members self s c subs Htask sub Hin)
      as (Hn & Hu & Hurls).
    exists c. auto.
  - intros H. injection H as <-. intros sub [].
Qed.

Lemma scrape_recipe_members (self : Scraper.t) (s : session)
  (data : list SubCategory.t) (results : list (option Recipe.t)) :
  scrape_recipe self s data = Return results ->
  forall o, In o results ->
    exists sub recipe_url,
      In sub data
      /\ In recipe_url (SubCategory.recipe_urls sub)
      /\ extract_recipe_details self s recipe_url
           (SubCategory.sub_category_name sub)
           (SubCategory.sub_category_url sub) = Return o.
Proof.
  unfold scrape_recipe, gather.
  rewrite scrape_recipe_tasks_submissions.
  intros H o Hin. apply comprehension_Return in H.
  destruct (@Forall2_In_r _ _ _ _ _ _ H Hin) as (t & Ht & Htask).
  apply in_map_iff in Ht as ([sub recipe_url] & <- & Hp).
  unfold submissions in Hp.
  apply in_flat_map in Hp as (sub' & Hsub & Hp).
  apply in_map_iff in Hp as (u & Hpair & Hu).
  injection Hpair as -> ->.
  exists sub, recipe_url. auto.
Qed.

(** X18.  Every record that the crawl hands over can be traced back: it
    carries the configured main category name and the URL that was
    resolved for it, the name and URL of one of the sub-categories listed
    on the main category's page, and a recipe URL that starts with the
    base URL. *)
Theorem main_records_traceable (cfg : Config.t) (s : session)
  (results : list (option Recipe.t)) :
  main cfg s = Return (Some results) ->
  exists scraper main_category_url sub_categories,
    initialize_main_category (init cfg) s = Return scraper
    /\ Scraper.main_category_url scraper = Some main_category_url
    /\ main_category_url <> []
    /\ get_categories scraper s main_category_url = Return sub_categories
    /\ forall r, In (Some r) results ->
         Recipe.main_category_name r = Config.main_category_name cfg
         /\ Recipe.main_category_url r = Some main_category_url
         /\ (exists c,
               In c sub_categories
               /\ Recipe.sub_category_name r = Category.name c
               /\ Recipe.sub_category_url r = Category.url c)
         /\ (exists href, Recipe.url r = Config.base_url cfg ++ href).
Proof.
  intros Hmain.
  destruct (@main_stages cfg s results Hmain)
    as (scraper & u & subs & recipes
        & Hinit & Hu & Hne & Hsubs & Hrecipes & Hresults).
  exists scraper, u, subs.
  repeat (split; [assumption|]).
  intros r Hr.
  destruct (@scrape_recipe_members scraper s (List.concat recipes) results
              Hresults (Some r) Hr)
    as (sub & recipe_url & Hsub & Hurl & Hextract).
  destruct (@get_all_recipes_urls_members scraper s subs recipes
              Hrecipes sub Hsub)
    as (c & Hc & Hname & Hcurl & Hunder).
  destruct (@initialize_main_category_attributes cfg s scraper Hinit)
    as (_ & Hbase & Hmname).
  destruct (@extract_recipe_details_fetched scraper s recipe_url _ _ r
              Hextract) as (soup & Hsoup).
  destruct (@extract_recipe_details_inv scraper s recipe_url _ _ soup
              Hsoup r Hextract) as (req & stages & _ & ->).
  unfold record_of. simpl.
  split; [exact Hmname|]. split; [exact Hu|].
  split; [exists c; auto|].
  rewrite Forall_forall in Hunder.
  destruct (Hunder recipe_url Hurl) as (href & ->).
  exists href. now rewrite Hbase.
Qed.

Lemma main_records_traceable_witness :
  exists results scraper main_category_url sub_categories,
    main Fixture.cfg Fixture.site = Return (Some results)
    /\ initialize_main_category (init Fixture.cfg) Fixture.site
       = Return scraper
    /\ main_category_url = lit "http://k/soups"
    /\ get_categories scraper Fixture.site main_category_url
       = Return sub_categories
    /\ forall r, In (Some r) results ->
         Recipe.main_category_name r = lit "Soups"
         /\ Recipe.main_category_url r = Some main_category_url
         /\ (exists c,
               In c sub_categories
               /\ Recipe.sub_category_name r = Category.name c
               /\ Recipe.sub_category_url r = Category.url c)
         /\ (exists href, Recipe.url r = lit "http://k" ++ href).
Proof.
  destruct (main Fixture.cfg Fixture.site) as [[results|]|e] eqn:Hmain;
    try (vm_compute in Hmain; discriminate Hmain).
  destruct (@main_records_traceable Fixture.cfg Fixture.site results Hmain)
    as (scraper & u & subs & Hinit & Hu & _ & Hsubs & Hall).
  exists results, scraper, u, subs.
  split; [reflexivity|]. split; [exact Hinit|].
  split; [|split; [exact Hsubs | exact Hall]].
  vm_compute in Hinit. injection Hinit as <-.
  vm_compute in Hu. injection Hu as <-. reflexivity.
Defined.

(** ** The fixed points of text cleaning *)

Lemma tidy_head (c : char) (s : str) : tidy (c :: s) -> isspace c = false.
Proof.
  intros Ht. destruct (isspace c) eqn:Hc; [|reflexivity].
  destruct (Ht [] c s eq_refl Hc) as (_ & (p & x & Hp & _) & _).
  destruct p; discriminate.
Qed.

Lemma tidy_tail (c d : char) (s : str) :
  tidy (c :: d :: s) -> isspace d = false -> tidy (d :: s).
Proof.
  intros Ht Hd pre x post Heq Hx.
  destruct (Ht (c :: pre) x post) as (-> & (p & y & Hp & Hy) & Hpost);
    [simpl; now rewrite Heq | exact Hx |].
  split; [reflexivity|]. split; [|exact Hpost].
  destruct pre as [|z pre].
  - simpl in Heq. injection Heq as -> _. congruence.
  - destruct (@exists_last _ (z :: pre)) as (p' & y' & Hlast);
      [discriminate|].
    rewrite Hlast in Hp. rewrite app_comm_cons in Hp.
    apply app_inj_tail in Hp as [_ ->].
    exists p', y. split; [exact Hlast | exact Hy].
Qed.

Lemma tidy_after_space (c d : char) (s : str) :
  tidy (c :: d :: s) -> isspace d = true ->
  d = SPACE /\ tidy s /\ exists y q, s = y :: q /\ isspace y = false.
Proof.
  intros Ht Hd.
  destruct (Ht [c] d s eq_refl Hd) as (-> & _ & Hs).
  split; [reflexivity|]. split; [|exact Hs].
  intros pre x post Heq Hx.
  destruct (Ht (c :: SPACE :: pre) x post)
    as (-> & (p & y & Hp & Hy) & Hpost);
    [simpl; now rewrite Heq | exact Hx |].
  split; [reflexivity|]. split; [|exact Hpost].
  destruct pre as [|z pre].
  - change [c; SPACE] with ([c] ++ [SPACE]) in Hp.
    apply app_inj_tail in Hp as [_ <-]. discriminate Hy.
  - destruct (@exists_last _ (z :: pre)) as (p' & y' & Hlast);
      [discriminate|].
    rewrite Hlast in Hp.
    change (c :: SPACE :: p' ++ [y']) with ((c :: SPACE :: p') ++ [y'])
      in Hp.
    apply app_inj_tail in Hp as [_ ->].
    exists p', y. split; [exact Hlast | exact Hy].
Qed.

Lemma join_cons_head (sep : str) (c : char) (w : str) (ws : list str) :
  join sep ((c :: w) :: ws) = c :: join sep (w :: ws).
Proof. destruct ws; reflexivity. Qed.

Lemma split_nonspace_head (y : char) (q : str) :
  isspace y = false -> exists w ws, split (y :: q) = w :: ws.
Proof.
  intros Hy. rewrite split_cons, Hy.
  destruct q as [|d q']; [eauto|].
  destruct (isspace d); [eauto|].
  destruct (split (d :: q')); eauto.
Qed.

Lemma join_split_tidy (s : str) : tidy s -> join [SPACE] (split s) = s.
Proof.
  remember (length s) as n eqn:Hn.
  assert (Hle : length s <= n) by lia. clear Hn.
  revert s Hle. induction n as [|n IH]; intros s Hle Ht.
  - destruct s; [reflexivity | simpl in Hle; lia].
  - destruct s as [|c s']; [reflexivity|].
    pose proof (tidy_head Ht) as Hc.
    destruct s' as [|d s'']; [simpl; now rewrite Hc|].
    rewrite split_cons, Hc.
    destruct (isspace d) eqn:Hd.
    + destruct (tidy_after_space Ht Hd) as (-> & Hs & y & q & -> & Hy).
      rewrite split_cons. change (isspace SPACE) with true. cbv iota.
      destruct (@split_nonspace_head y q Hy) as (w & ws & Hsplit).
      assert (Hrec : join [SPACE] (split (y :: q)) = y :: q).
      { apply IH; [simpl in *; lia | exact Hs]. }
      rewrite Hsplit in *. simpl join at 1.
      simpl in Hrec |- *. now rewrite Hrec.
    + pose proof (tidy_tail Ht Hd) as Hs.
      destruct (@split_nonspace_head d s'' Hd) as (w & ws & Hsplit).
      assert (Hrec : join [SPACE] (split (d :: s'')) = d :: s'').
      { apply IH; [simpl in *; lia | exact Hs]. }
      rewrite Hsplit in *. now rewrite join_cons_head, Hrec.
Qed.

(** X19.  The texts that cleaning leaves unchanged are exactly the tidy
    ones: those whose white space consists of single ordinary spaces
    between two other characters. *)
Theorem clean_text_fixed_iff_tidy (text : str) :
  clean_text text = text <-> tidy text.
Proof.
  split.
  - intros H. rewrite <- H. apply clean_text_tidy.
  - intros Ht. unfold clean_text.
    rewrite (@replace_tidy NEWLINE text eq_refl Ht).
    rewrite (@replace_tidy NBSP text eq_refl Ht).
    now apply join_split_tidy.
Qed.

(** ** Containers without their inner elements *)

(** C10, as stated, fails.  The three pages below carry the six
    containers of a recipe page and no ingredient element, and none of
    them yields a record: the page whose author container holds no name
    element gives [None], the page whose image container holds no [img]
    raises [TypeError] and the page with a single portion indicator
    raises [IndexError]. *)
Lemma containers_alone_give_no_record :
  (containers_present Fixture.cfg Variants.anonymous_page
   /\ Variants.ingredient_elements Variants.anonymous_page = []
   /\ Variants.details "/r10" = Return None
   /\ ~ returns_record_without_ingredients (Variants.details "/r10"))
  /\ (containers_present Fixture.cfg Variants.imageless_page
      /\ Variants.ingredient_elements Variants.imageless_page = []
      /\ Variants.details "/r11" = Raise TypeError
      /\ ~ returns_record_without_ingredients (Variants.details "/r11"))
  /\ (containers_present Fixture.cfg Variants.single_portion_page
      /\ Variants.ingredient_elements Variants.single_portion_page = []
      /\ Variants.details "/r12" = Raise IndexError
      /\ ~ returns_record_without_ingredients (Variants.details "/r12")).
Proof.
  assert (Hpresent : forall page,
            (find page DIV (Some (lit "title")) <> None
             /\ find page DIV (Some (lit "image")) <> None
             /\ find page DIV (Some (lit "descr")) <> None
             /\ find page DIV (Some (lit "author")) <> None
             /\ find_all page DIV (Some (lit "portion")) <> []
             /\ find_all page DIV (Some (lit "stage")) <> []) ->
            containers_present Fixture.cfg page)
    by (intros page H; exact H).
  split; [|split].
  - split; [apply Hpresent; repeat split; discriminate|].
    split; [reflexivity|]. split; [reflexivity|].
    intros (r & Hr & _). vm_compute in Hr. discriminate Hr.
  - split; [apply Hpresent; repeat split; discriminate|].
    split; [reflexivity|]. split; [reflexivity|].
    intros (r & Hr & _). vm_compute in Hr. discriminate Hr.
  - split; [apply Hpresent; repeat split; discriminate|].
    split; [reflexivity|]. split; [reflexivity|].
    intros (r & Hr & _). vm_compute in Hr. discriminate Hr.
Qed.
